(** * Products API: cache-aside reads, primary writes

    A shallow embedding of [app.py]: the Redis helpers, the replica/primary
    read path of [get_product], and the write paths [update_product] and
    [create_product].  Redis and the two PostgreSQL endpoints are part of an
    explicit [world]; every client call appends an [event] to the world's log
    and may fail as dictated by the endpoint's pending faults. *)

From Stdlib Require Import ZArith Lia.
From stdpp Require Import base strings pretty gmap list.

Local Open Scope string_scope.
Local Open Scope list_scope.
Local Open Scope Z_scope.

(** ** Exceptions *)

(** The exception classes that the program names or that its libraries raise,
    with the base class of each ([base c = None] only for [Exception]). *)
Inductive exn_class :=
  | py_Exception
  | py_OSError
  | py_ConnectionError
  | py_ValueError
  | py_TypeError
  | json_JSONDecodeError
  | redis_RedisError
  | redis_ConnectionError
  | redis_TimeoutError
  | redis_ResponseError
  | redis_BusyLoadingError
  | pg_Error
  | pg_InterfaceError
  | pg_DatabaseError
  | pg_OperationalError
  | pg_QueryCanceledError
  | pg_TransactionRollbackError
  | pg_ProgrammingError
  | pg_IntegrityError
  | pg_DataError
  | pg_InternalError
  | pg_NotSupportedError.

#[global] Instance exn_class_eq_dec : EqDecision exn_class.
Proof. solve_decision. Defined.

Definition base (c : exn_class) : option exn_class :=
  match c with
  | py_Exception => None
  | py_OSError => Some py_Exception
  | py_ConnectionError => Some py_OSError
  | py_ValueError => Some py_Exception
  | py_TypeError => Some py_Exception
  | json_JSONDecodeError => Some py_ValueError
  | redis_RedisError => Some py_Exception
  | redis_ConnectionError => Some redis_RedisError
  | redis_TimeoutError => Some redis_RedisError
  | redis_ResponseError => Some redis_RedisError
  | redis_BusyLoadingError => Some redis_ConnectionError
  | pg_Error => Some py_Exception
  | pg_InterfaceError => Some pg_Error
  | pg_DatabaseError => Some pg_Error
  | pg_OperationalError => Some pg_DatabaseError
  | pg_QueryCanceledError => Some pg_OperationalError
  | pg_TransactionRollbackError => Some pg_OperationalError
  | pg_ProgrammingError => Some pg_DatabaseError
  | pg_IntegrityError => Some pg_DatabaseError
  | pg_DataError => Some pg_DatabaseError
  | pg_InternalError => Some pg_DatabaseError
  | pg_NotSupportedError => Some pg_DatabaseError
  end.

(** [c.__name__] *)
Definition class_name (c : exn_class) : string :=
  match c with
  | py_Exception => "Exception"
  | py_OSError => "OSError"
  | py_ConnectionError => "ConnectionError"
  | py_ValueError => "ValueError"
  | py_TypeError => "TypeError"
  | json_JSONDecodeError => "JSONDecodeError"
  | redis_RedisError => "RedisError"
  | redis_ConnectionError => "ConnectionError"
  | redis_TimeoutError => "TimeoutError"
  | redis_ResponseError => "ResponseError"
  | redis_BusyLoadingError => "BusyLoadingError"
  | pg_Error => "Error"
  | pg_InterfaceError => "InterfaceError"
  | pg_DatabaseError => "DatabaseError"
  | pg_OperationalError => "OperationalError"
  | pg_QueryCanceledError => "QueryCanceledError"
  | pg_TransactionRollbackError => "TransactionRollbackError"
  | pg_ProgrammingError => "ProgrammingError"
  | pg_IntegrityError => "IntegrityError"
  | pg_DataError => "DataError"
  | pg_InternalError => "InternalError"
  | pg_NotSupportedError => "NotSupportedError"
  end.

(** [issubclass(c, d)], walking up the chain of base classes; the hierarchy
    is four levels deep. *)
Fixpoint issubclass_upto (depth : nat) (c d : exn_class) : bool :=
  bool_decide (c = d) ||
  match depth, base c with
  | S n, Some b => issubclass_upto n b d
  | _, _ => false
  end.

Definition issubclass : exn_class -> exn_class -> bool := issubclass_upto 4.

(** A raised exception: an instance of one of the library classes, or the
    [HTTPException] that the handlers raise themselves. *)
Inductive exn :=
  | Raised (c : exn_class)
  | HTTPException (status_code : Z) (detail : string).

(** [isinstance(e, classes)], the test of an [except (...)] clause. *)
Definition isinstance (e : exn) (classes : list exn_class) : bool :=
  match e with
  | Raised c => existsb (issubclass c) classes
  | HTTPException _ _ => false
  end.

#[global] Arguments isinstance : simpl never.

(** [e.__class__.__name__] *)
Definition exn_name (e : exn) : string :=
  match e with
  | Raised c => class_name c
  | HTTPException _ _ => "HTTPException"
  end.

(** ** Values *)

(** What [json.loads] returns (numbers are the integers; the program never
    writes a fractional number). *)
#[warnings="-register-all"]
Inductive json :=
  | JNull
  | JBool (b : bool)
  | JInt (n : Z)
  | JStr (s : string)
  | JArr (items : list json)
  | JObj (members : list (string * json)).

(** Python truthiness of a decoded value, as tested by [if cached:]. *)
Definition truthy (v : json) : bool :=
  match v with
  | JNull => false
  | JBool b => b
  | JInt n => negb (n =? 0)
  | JStr s => negb (String.eqb s "")
  | JArr items => match items with [] => false | _ :: _ => true end
  | JObj members => match members with [] => false | _ :: _ => true end
  end.

(** A string held by Redis, as [json.loads] sees it: the empty string, a JSON
    document (identified with the value it denotes), or text that is not
    JSON. *)
Inductive text :=
  | EmptyText
  | JsonText (doc : json)
  | OtherText (s : string).

(** A row of [products] as a [RealDictRow] with the four selected columns;
    [updated_at] is filled by the store and may be NULL as far as the
    statements of the program are concerned.  Such a row is never empty, so
    [if not row] holds exactly when [fetchone] returned [None]: fetched rows
    are [option product] and the test is a match on [None]. *)
Record product := Product {
  id : Z;
  name : string;
  price_cents : Z;
  updated_at : option Z
}.

Record ProductUpdate := {
  upd_name : option string;
  upd_price_cents : option Z
}.

Record ProductCreate := {
  new_name : string;
  new_price_cents : Z
}.

(** What [get_product] hands back: the decoded cache entry or the row. *)
Inductive body :=
  | Cached (doc : json)
  | Row (row : product).

(** [o is None] *)
Definition is_None {A} (o : option A) : bool :=
  match o with None => true | Some _ => false end.

Definition cache_key (product_id : Z) : string :=
  "product:" +:+ pretty product_id.

(** ** The world outside the process *)

Inductive dsn := PRIMARY_DSN | REPLICA_DSN.

#[global] Instance dsn_eq_dec : EqDecision dsn.
Proof. solve_decision. Defined.

(** One clause of the [SET] list that [update_product] assembles, with the
    value bound to its [%s]. *)
Inductive assignment :=
  | SetName (s : string)
  | SetPriceCents (n : Z)
  | SetUpdatedAtNow.

(** The three statements the program sends; each returns the columns
    [id, name, price_cents, updated_at] of at most one row. *)
Inductive statement :=
  | SelectById (product_id : Z)
  | UpdateById (set_parts : list assignment) (product_id : Z)
  | InsertProduct (name : string) (price_cents : Z).

Inductive event :=
  | RedisGet (key : string)
  | RedisSetex (key : string) (ttl_seconds : Z) (value : text)
  | RedisDelete (key : string)
  | PgConnect (target : dsn)
  | PgExecute (target : dsn) (query : statement)
  | PgCommit (target : dsn).

(** Modelled from the spec: the [products] table, whose schema is not part of
    the program.  The store assigns [id] from a sequence on creation and sets
    [updated_at] to its clock on every creation or mutation. *)
Record database := Database {
  products : gmap Z product;
  next_id : Z;
  now : Z
}.

(** A PostgreSQL endpoint: the committed database, the state of the
    transaction open on the current connection (if any), and the outcomes of
    the next client calls ([Some c]: the call raises an instance of [c]; an
    exhausted list: no more faults). *)
Record pg_endpoint := PgEndpoint {
  db : database;
  txn : option database;
  pg_faults : list (option exn_class)
}.

(** The Redis server: each key holds a string and its time to live. *)
Record redis_endpoint := RedisEndpoint {
  entries : gmap string (text * Z);
  redis_faults : list (option exn_class)
}.

Record world := World {
  redis : redis_endpoint;
  primary : pg_endpoint;
  replica : pg_endpoint;
  log : list event
}.

Definition endpoint (d : dsn) (w : world) : pg_endpoint :=
  match d with PRIMARY_DSN => primary w | REPLICA_DSN => replica w end.

Definition set_endpoint (d : dsn) (ep : pg_endpoint) (w : world) : world :=
  match d with
  | PRIMARY_DSN => World (redis w) ep (replica w) (log w)
  | REPLICA_DSN => World (redis w) (primary w) ep (log w)
  end.

Definition set_redis (r : redis_endpoint) (w : world) : world :=
  World r (primary w) (replica w) (log w).

(** Replication catching up, a step of the environment and never of the
    program: the replica's committed database becomes the primary's. *)
Definition replicate (w : world) : world :=
  World (redis w) (primary w)
        (PgEndpoint (db (primary w)) (txn (replica w)) (pg_faults (replica w)))
        (log w).

Definition pop_fault (fs : list (option exn_class))
  : option exn_class * list (option exn_class) :=
  match fs with
  | [] => (None, [])
  | f :: rest => (f, rest)
  end.

(** ** Computations: state and exceptions *)

Inductive outcome (A : Type) :=
  | Return (a : A)
  | Raise (e : exn).
Arguments Return {A} a.
Arguments Raise {A} e.

Definition M (A : Type) : Type := world -> outcome A * world.

Definition ret {A} (a : A) : M A := fun w => (Return a, w).

Definition raise {A} (e : exn) : M A := fun w => (Raise e, w).

Definition bind {A B} (m : M A) (k : A -> M B) : M B := fun w =>
  match m w with
  | (Return a, w') => k a w'
  | (Raise e, w') => (Raise e, w')
  end.

Notation "x <- m ;; k" := (bind m (fun x => k))
  (at level 100, m at next level, k at level 200, right associativity).
Notation "m ;; k" := (bind m (fun _ => k))
  (at level 100, k at level 200, right associativity).

(** [try: m  except classes as e: handler e] *)
Definition try_except {A} (m : M A) (classes : list exn_class)
    (handler : exn -> M A) : M A := fun w =>
  match m w with
  | (Return a, w') => (Return a, w')
  | (Raise e, w') =>
      if isinstance e classes then handler e w' else (Raise e, w')
  end.

Definition emit (ev : event) : M unit := fun w =>
  (Return tt, World (redis w) (primary w) (replica w) (log w ++ [ev])).

(** ** The Redis client [r] *)

Definition redis_call : M unit := fun w =>
  let '(f, rest) := pop_fault (redis_faults (redis w)) in
  let w' := set_redis (RedisEndpoint (entries (redis w)) rest) w in
  match f with
  | Some c => (Raise (Raised c), w')
  | None => (Return tt, w')
  end.

Definition r_get (key : string) : M (option text) :=
  emit (RedisGet key) ;;
  redis_call ;;
  fun w => (Return (fst <$> entries (redis w) !! key), w).

Definition r_setex (key : string) (ttl_seconds : Z) (value : text) : M unit :=
  emit (RedisSetex key ttl_seconds value) ;;
  redis_call ;;
  fun w =>
    (Return tt,
     set_redis (RedisEndpoint (<[key := (value, ttl_seconds)]> (entries (redis w)))
                              (redis_faults (redis w))) w).

Definition r_delete (key : string) : M unit :=
  emit (RedisDelete key) ;;
  redis_call ;;
  fun w =>
    (Return tt,
     set_redis (RedisEndpoint (delete key (entries (redis w)))
                              (redis_faults (redis w))) w).

(** ** The psycopg2 client *)

Definition pg_call (d : dsn) : M unit := fun w =>
  let ep := endpoint d w in
  let '(f, rest) := pop_fault (pg_faults ep) in
  let w' := set_endpoint d (PgEndpoint (db ep) (txn ep) rest) w in
  match f with
  | Some c => (Raise (Raised c), w')
  | None => (Return tt, w')
  end.

(** [psycopg2.connect(dsn, ...)]: a new connection has no open
    transaction. *)
Definition psycopg2_connect (d : dsn) : M unit :=
  emit (PgConnect d) ;;
  (fun w =>
     let ep := endpoint d w in
     (Return tt, set_endpoint d (PgEndpoint (db ep) None (pg_faults ep)) w)) ;;
  pg_call d.

Definition apply_assignment (clock : Z) (row : product) (a : assignment) : product :=
  match a with
  | SetName s => Product (id row) s (price_cents row) (updated_at row)
  | SetPriceCents n => Product (id row) (name row) n (updated_at row)
  | SetUpdatedAtNow => Product (id row) (name row) (price_cents row) (Some clock)
  end.

(** The rows a statement returns and the database it leaves behind. *)
Definition run_statement (q : statement) (d : database) : list product * database :=
  match q with
  | SelectById product_id =>
      (option_list (products d !! product_id), d)
  | UpdateById set_parts product_id =>
      match products d !! product_id with
      | None => ([], d)
      | Some row =>
          let row' := foldl (apply_assignment (now d)) row set_parts in
          ([row'], Database (<[product_id := row']> (products d)) (next_id d) (now d + 1))
      end
  | InsertProduct name price_cents =>
      let row := Product (next_id d) name price_cents (Some (now d)) in
      ([row], Database (<[next_id d := row]> (products d)) (next_id d + 1) (now d + 1))
  end.

(** [cur.execute(query, values)]: the statement runs inside the connection's
    transaction, which it opens if none is open; the value is the cursor's
    result set. *)
Definition cur_execute (d : dsn) (q : statement) : M (list product) :=
  emit (PgExecute d q) ;;
  pg_call d ;;
  fun w =>
    let ep := endpoint d w in
    let '(rows, d') := run_statement q (default (db ep) (txn ep)) in
    (Return rows, set_endpoint d (PgEndpoint (db ep) (Some d') (pg_faults ep)) w).

(** [cur.fetchone()] *)
Definition cur_fetchone (cur : list product) : option product := head cur.

(** [conn.rollback()], as run when a [with conn:] block is left by an
    exception: the open transaction is discarded. *)
Definition conn_rollback (d : dsn) (w : world) : world :=
  let ep := endpoint d w in
  set_endpoint d (PgEndpoint (db ep) None (pg_faults ep)) w.

(** [conn.commit()]: nothing is sent when no transaction is open; a failed
    commit leaves the committed database as it was. *)
Definition conn_commit (d : dsn) : M unit := fun w =>
  match txn (endpoint d w) with
  | None => (Return tt, w)
  | Some d' =>
      match (emit (PgCommit d) ;; pg_call d) w with
      | (Return _, w1) =>
          (Return tt, set_endpoint d (PgEndpoint d' None (pg_faults (endpoint d w1))) w1)
      | (Raise e, w1) => (Raise e, conn_rollback d w1)
      end
  end.

(** [with conn: body], for a connection already opened: commit on normal
    exit, roll back and re-raise on an exception. *)
Definition with_conn {A} (d : dsn) (body : M A) : M A := fun w =>
  match body w with
  | (Return a, w1) =>
      match conn_commit d w1 with
      | (Return _, w2) => (Return a, w2)
      | (Raise e, w2) => (Raise e, w2)
      end
  | (Raise e, w1) => (Raise e, conn_rollback d w1)
  end.

(** ** Observations on the log *)

(** The targets of the store calls (connections opened), in order. *)
Definition store_calls (evs : list event) : list dsn :=
  omap (fun ev => match ev with PgConnect d => Some d | _ => None end) evs.

(** The commands sent to Redis that change it. *)
Definition cache_writes (evs : list event) : list event :=
  List.filter
    (fun ev => match ev with RedisSetex _ _ _ | RedisDelete _ => true | _ => false end)
    evs.

(** All the commands sent to Redis. *)
Definition redis_commands (evs : list event) : list event :=
  List.filter
    (fun ev => match ev with
               | RedisGet _ | RedisSetex _ _ _ | RedisDelete _ => true
               | _ => false
               end)
    evs.

(** The next Redis command will be answered. *)
Definition redis_answers (w : world) : Prop :=
  fst (pop_fault (redis_faults (redis w))) = None.

(** The world after one Redis command [ev] that left the entries alone. *)
Definition redis_called (ev : event) (w : world) : world :=
  World (RedisEndpoint (entries (redis w)) (snd (pop_fault (redis_faults (redis w)))))
        (primary w) (replica w) (log w ++ [ev]).

(** The errors of the Redis client: the classes of [redis.exceptions] and the
    socket-level errors of the operating system. *)
Definition cache_client_error (c : exn_class) : Prop :=
  c ∈ [redis_RedisError; redis_ConnectionError; redis_TimeoutError;
       redis_ResponseError; redis_BusyLoadingError; py_OSError; py_ConnectionError].

(** Every fault pending on a Redis endpoint is an error of its client. *)
Definition client_faults (r : redis_endpoint) : Prop :=
  Forall (fun f => forall c, f = Some c -> cache_client_error c) (redis_faults r).


(** ** Worlds used in the examples *)

Definition juice : product := Product 1 "Juice" 250 (Some 1000).

Definition juice_repriced : product := Product 1 "Juice" 300 (Some 1001).

Definition empty_db : database := Database ∅ 1 1000.

Definition juice_db : database := Database {[ 1 := juice ]} 2 1001.

(** What the program caches for [juice] when timestamps print as numbers. *)
Definition juice_text : text :=
  JsonText (JObj [("id", JInt 1); ("name", JStr "Juice");
                  ("price_cents", JInt 250); ("updated_at", JStr "1000")]).

(** An older snapshot of product 1, still cached. *)
Definition stale_doc : json :=
  JObj [("id", JInt 1); ("name", JStr "Juice");
        ("price_cents", JInt 199); ("updated_at", JStr "900")].

Definition up (d : database) : pg_endpoint := PgEndpoint d None [].

Definition failing (d : database) (c : exn_class) : pg_endpoint :=
  PgEndpoint d None [Some c].

Definition empty_redis : redis_endpoint := RedisEndpoint ∅ [].

(** Nothing stored yet, every endpoint healthy. *)
Definition fresh_world : world :=
  World empty_redis (up empty_db) (up empty_db) [].

(** Product 1 on both stores, a stale snapshot of it in the cache. *)
Definition stale_cache_world : world :=
  World (RedisEndpoint {[ "product:1" := (JsonText stale_doc, 60) ]} [])
        (up juice_db) (up juice_db) [].


(** Empty cache whose second command fails; the replica refuses the
    connection; the primary is healthy. *)
Definition replica_down_world (second_redis_call : option exn_class) : world :=
  World (RedisEndpoint ∅ [None; second_redis_call])
        (up juice_db) (failing juice_db pg_OperationalError) [].

(** Empty cache, both stores refusing connections. *)
Definition stores_down_world : world :=
  World empty_redis
        (failing juice_db pg_InterfaceError)
        (failing juice_db pg_OperationalError) [].

(** Empty cache, replica answering with a query error. *)
Definition replica_query_error_world : world :=
  World empty_redis
        (up juice_db)
        (PgEndpoint juice_db None [None; Some pg_ProgrammingError]) [].

(** Product 1 on both stores, nothing cached. *)
Definition replicated_world : world :=
  World empty_redis (up juice_db) (up juice_db) [].

(** Nothing stored yet; the next Redis command is refused. *)
Definition cache_down_world : world :=
  World (RedisEndpoint ∅ [Some redis_ConnectionError]) (up empty_db) (up empty_db) [].

(** Product 1 on both stores; its cache entry holds an empty object. *)
Definition falsy_cache_world : world :=
  World (RedisEndpoint {[ "product:1" := (JsonText (JObj []), 60) ]} [])
        (up juice_db) (up juice_db) [].

(** Product 1 on both stores; its cache entry holds text that is not JSON. *)
Definition corrupt_cache_world : world :=
  World (RedisEndpoint {[ "product:1" := (OtherText "<html>", 60) ]} [])
        (up juice_db) (up juice_db) [].

(** Empty cache; the replica refuses the connection and the primary
    rejects the query. *)
Definition primary_query_error_world : world :=
  World empty_redis
        (PgEndpoint juice_db None [None; Some pg_ProgrammingError])
        (failing juice_db pg_OperationalError) [].


Definition render_timestamp (t : Z) : string := pretty t.

Definition juice_request : ProductCreate := Build_ProductCreate "Juice" 250.

Definition reprice_request : ProductUpdate := Build_ProductUpdate None (Some 300).

Definition empty_request : ProductUpdate := Build_ProductUpdate None None.

(** ** Proof steps *)

Ltac rew_inst :=
  match goal with
  | H : isinstance _ _ = _ |- _ => rewrite H
  end.

Ltac case_if :=
  match goal with
  | |- context [if ?b then _ else _] => destruct b eqn:?
  end.

(** Case analysis on the outcome of the next client call. *)
Ltac next_fault fs :=
  let c := fresh "c" in
  destruct fs as [|[c|] fs]; cbn.

Ltac pg_close :=
  first
    [ by intros [] ?
    | intros ? [= <-]; by destruct (products _ !! _)
    | intros ? [= <-]; by eauto
    | by intros ? [=]
    | done ].

Ltac computed := vm_compute; reflexivity.

(** ** The application *)

Section App.

(** [int(os.getenv("CACHE_TTL_SECONDS", "60"))] *)
Variable CACHE_TTL_SECONDS : Z.

(** [str(t)] for a timestamp [t], which is how [json.dumps(..., default=str)]
    renders [updated_at]. *)
Variable str_datetime : Z -> string.

(** [json.dumps(value, default=str)] for a row. *)
Definition json_dumps (value : product) : text :=
  JsonText (JObj [
    ("id", JInt (id value));
    ("name", JStr (name value));
    ("price_cents", JInt (price_cents value));
    ("updated_at", match updated_at value with
                   | Some t => JStr (str_datetime t)
                   | None => JNull
                   end)]).

(** [json.loads(val)]; [JNull] is Python's [None]. *)
Definition json_loads (val : text) : M json :=
  match val with
  | JsonText doc => ret doc
  | EmptyText | OtherText _ => raise (Raised json_JSONDecodeError)
  end.

(** Truthiness of a [str]. *)
Definition nonempty (val : text) : bool :=
  match val with
  | EmptyText => false
  | JsonText _ | OtherText _ => true
  end.

Definition redis_get_json (key : string) : M json :=
  try_except
    (val <- r_get key ;;
     match val with
     | Some val => if nonempty val then json_loads val else ret JNull
     | None => ret JNull
     end)
    [redis_RedisError; py_OSError; py_ConnectionError]
    (fun _ => ret JNull).

Definition redis_set_json (key : string) (value : product) (ttl_seconds : Z) : M unit :=
  try_except
    (r_setex key ttl_seconds (json_dumps value))
    [redis_RedisError; py_OSError; py_ConnectionError]
    (fun _ => ret tt).

Definition redis_del (key : string) : M unit :=
  try_except
    (r_delete key)
    [redis_RedisError; py_OSError; py_ConnectionError]
    (fun _ => ret tt).

Definition get_primary_conn : M unit := psycopg2_connect PRIMARY_DSN.

Definition get_replica_conn : M unit := psycopg2_connect REPLICA_DSN.

Definition fetch_product_from_db (d : dsn) (product_id : Z) : M (option product) :=
  psycopg2_connect d ;;
  with_conn d
    (cur <- cur_execute d (SelectById product_id) ;;
     ret (cur_fetchone cur)).

Definition get_product (product_id : Z) : M body :=
  let key := cache_key product_id in
  cached <- redis_get_json key ;;
  if truthy cached then ret (Cached cached) else
  row <- try_except
           (fetch_product_from_db REPLICA_DSN product_id)
           [pg_OperationalError; pg_InterfaceError]
           (fun _ =>
              try_except
                (fetch_product_from_db PRIMARY_DSN product_id)
                [pg_OperationalError; pg_InterfaceError]
                (fun e => raise (HTTPException 503
                                   ("Database unavailable: " +:+ exn_name e)))) ;;
  match row with
  | None => raise (HTTPException 404 "Product not found")
  | Some row =>
      redis_set_json key row CACHE_TTL_SECONDS ;;
      ret (Row row)
  end.

(** The body of the [try] block of the two write handlers: open a
    connection to the primary, run [query], read the row back, commit. *)
Definition primary_write (query : statement) : M (option product) :=
  get_primary_conn ;;
  with_conn PRIMARY_DSN
    (cur <- cur_execute PRIMARY_DSN query ;;
     let row := cur_fetchone cur in
     conn_commit PRIMARY_DSN ;;
     ret row).

(** The [SET] clauses of [update_product], in the order they are appended. *)
Definition set_parts (payload : ProductUpdate) : list assignment :=
  match upd_name payload with Some s => [SetName s] | None => [] end ++
  match upd_price_cents payload with Some n => [SetPriceCents n] | None => [] end ++
  [SetUpdatedAtNow].

Definition update_product (product_id : Z) (payload : ProductUpdate) : M product :=
  if is_None (upd_name payload) && is_None (upd_price_cents payload)
  then raise (HTTPException 400 "No fields to update") else
  let query := UpdateById (set_parts payload) product_id in
  updated <- try_except
               (primary_write query)
               [pg_OperationalError; pg_InterfaceError]
               (fun e => raise (HTTPException 503
                                  ("Primary database unavailable: " +:+ exn_name e))) ;;
  match updated with
  | None => raise (HTTPException 404 "Product not found")
  | Some updated =>
      redis_del (cache_key product_id) ;;
      ret updated
  end.

Definition create_product (payload : ProductCreate) : M product :=
  created <- try_except
               (primary_write (InsertProduct (new_name payload) (new_price_cents payload)))
               [pg_OperationalError; pg_InterfaceError]
               (fun e => raise (HTTPException 503
                                  ("Primary database unavailable: " +:+ exn_name e))) ;;
  match created with
  | Some created =>
      redis_set_json (cache_key (id created)) created CACHE_TTL_SECONDS ;;
      ret created
  | None => raise (Raised py_TypeError)
  end.

(** Shorthands for the statements below. *)

Abbreviation redis_except := [redis_RedisError; py_OSError; py_ConnectionError].

Abbreviation pg_except := [pg_OperationalError; pg_InterfaceError].

Abbreviation not_found := (HTTPException 404 "Product not found").

Abbreviation primary_unavailable e :=
  (HTTPException 503 ("Primary database unavailable: " +:+ exn_name e)).

(** What [get_product] does once it has a row. *)
Abbreviation cache_and_return product_id row :=
  (redis_set_json (cache_key product_id) row CACHE_TTL_SECONDS ;; ret (Row row)).

(** ** The cache helpers *)

Lemma redis_get_json_world key w :
  snd (redis_get_json key w) = redis_called (RedisGet key) w.
Proof.
  destruct w as [[es fs] p rp lg].
  unfold redis_get_json, try_except, bind, r_get, emit, redis_call, redis_called.
  cbn. destruct fs as [|[c|] fs]; cbn.
  - destruct (es !! key) as [[[| |] ?]|]; reflexivity.
  - case_if; reflexivity.
  - destruct (es !! key) as [[[| |] ?]|]; reflexivity.
Qed.

Lemma client_error_caught c :
  cache_client_error c -> isinstance (Raised c) redis_except = true.
Proof.
  unfold cache_client_error. rewrite !elem_of_cons, elem_of_nil.
  intros H. repeat (destruct H as [-> | H]; [reflexivity |]). destruct H.
Qed.


Lemma redis_get_json_absent key w cached w1 :
  entries (redis w) !! key = None ->
  redis_get_json key w = (Return cached, w1) ->
  cached = JNull.
Proof.
  destruct w as [[es fs] p rp lg]. cbn [redis entries]. intros Hk.
  unfold redis_get_json, try_except, bind, r_get, emit, redis_call.
  cbn. destruct fs as [|[c|] fs]; cbn; rewrite ?Hk; cbn.
  - by intros [= <- _].
  - case_if; cbn; by intros [= <- _].
  - by intros [= <- _].
Qed.

Lemma redis_set_json_spec key value ttl w :
  let r := redis_set_json key value ttl w in
  log (snd r) = log w ++ [RedisSetex key ttl (json_dumps value)] /\
  primary (snd r) = primary w /\ replica (snd r) = replica w /\
  entries (redis (snd r)) =
    match fst (pop_fault (redis_faults (redis w))) with
    | None => <[key := (json_dumps value, ttl)]> (entries (redis w))
    | Some _ => entries (redis w)
    end /\
  (forall c, fst (pop_fault (redis_faults (redis w))) = Some c ->
             fst r = if isinstance (Raised c) redis_except
                     then Return tt else Raise (Raised c)) /\
  (redis_answers w -> fst r = Return tt).
Proof.
  destruct w as [[es fs] p rp lg].
  unfold redis_set_json, try_except, bind, r_setex, emit, redis_call, redis_answers.
  cbn. destruct fs as [|[c|] fs]; cbn.
  - repeat split; congruence.
  - case_if; cbn; repeat split; try congruence; intros c' [= <-]; by rew_inst.
  - repeat split; congruence.
Qed.

Lemma redis_del_spec key w :
  let r := redis_del key w in
  log (snd r) = log w ++ [RedisDelete key] /\
  primary (snd r) = primary w /\ replica (snd r) = replica w /\
  entries (redis (snd r)) =
    match fst (pop_fault (redis_faults (redis w))) with
    | None => delete key (entries (redis w))
    | Some _ => entries (redis w)
    end /\
  (forall c, fst (pop_fault (redis_faults (redis w))) = Some c ->
             fst r = if isinstance (Raised c) redis_except
                     then Return tt else Raise (Raised c)) /\
  (redis_answers w -> fst r = Return tt).
Proof.
  destruct w as [[es fs] p rp lg].
  unfold redis_del, try_except, bind, r_delete, emit, redis_call, redis_answers.
  cbn. destruct fs as [|[c|] fs]; cbn.
  - repeat split; congruence.
  - case_if; cbn; repeat split; try congruence; intros c' [= <-]; by rew_inst.
  - repeat split; congruence.
Qed.

(** ** The store calls *)

Lemma fetch_product_from_db_spec d product_id w :
  let r := fetch_product_from_db d product_id w in
  store_calls (log (snd r)) = store_calls (log w) ++ [d] /\
  cache_writes (log (snd r)) = cache_writes (log w) /\
  redis (snd r) = redis w /\
  db (endpoint d (snd r)) = db (endpoint d w) /\
  (forall d', d' <> d -> endpoint d' (snd r) = endpoint d' w) /\
  (forall row, fst r = Return row ->
               row = products (db (endpoint d w)) !! product_id) /\
  (forall e, fst r = Raise e -> exists c, e = Raised c).
Proof.
  destruct w as [r [pd pt pf] [rd rt rf] lg].
  unfold fetch_product_from_db, with_conn, conn_commit, conn_rollback, bind,
    psycopg2_connect, cur_execute, pg_call, emit, ret, store_calls, cache_writes.
  destruct d; cbn.
  - next_fault pf; [ | | next_fault pf; [ | | next_fault pf]];
      rewrite ?omap_app, ?List.filter_app, <- ?app_assoc, ?app_nil_r; cbn;
      rewrite ?app_nil_r; repeat split; pg_close.
  - next_fault rf; [ | | next_fault rf; [ | | next_fault rf]];
      rewrite ?omap_app, ?List.filter_app, <- ?app_assoc, ?app_nil_r; cbn;
      rewrite ?app_nil_r; repeat split; pg_close.
Qed.

Lemma primary_write_spec q w :
  let r := primary_write q w in
  redis (snd r) = redis w /\ replica (snd r) = replica w /\
  cache_writes (log (snd r)) = cache_writes (log w) /\
  (forall e, fst r = Raise e ->
             db (primary (snd r)) = db (primary w) /\ exists c, e = Raised c) /\
  (forall row, fst r = Return row ->
     log (snd r) = log w ++ [PgConnect PRIMARY_DSN; PgExecute PRIMARY_DSN q;
                             PgCommit PRIMARY_DSN] /\
     row = cur_fetchone (fst (run_statement q (db (primary w)))) /\
     db (primary (snd r)) = snd (run_statement q (db (primary w)))).
Proof.
  destruct w as [r [pd pt pf] rp lg].
  unfold primary_write, get_primary_conn, with_conn, conn_commit, conn_rollback,
    bind, psycopg2_connect, cur_execute, pg_call, emit, ret, cache_writes.
  cbn. destruct (run_statement q pd) as [rows d'] eqn:Hq.
  next_fault pf; rewrite ?Hq; cbn;
    [ | | next_fault pf; rewrite ?Hq; cbn; [ | | next_fault pf; rewrite ?Hq; cbn]];
    rewrite ?List.filter_app, <- ?app_assoc, ?app_nil_r; cbn;
    rewrite ?app_nil_r; repeat split;
    intros; simplify_eq; eauto.
Qed.

Lemma store_calls_app evs evs' :
  store_calls (evs ++ evs') = store_calls evs ++ store_calls evs'.
Proof. apply omap_app. Qed.

Lemma cache_writes_app evs evs' :
  cache_writes (evs ++ evs') = cache_writes evs ++ cache_writes evs'.
Proof. apply List.filter_app. Qed.

(** ** The read path *)

Lemma redis_get_json_returns key w r w1 :
  redis_get_json key w = (r, w1) ->
  log w1 = log w ++ [RedisGet key] /\ entries (redis w1) = entries (redis w) /\
  primary w1 = primary w /\ replica w1 = replica w.
Proof.
  intros H. pose proof (redis_get_json_world key w) as Hw.
  rewrite H in Hw. cbn in Hw. subst w1. by repeat split.
Qed.

Lemma get_product_hit w product_id cached w1 :
  redis_get_json (cache_key product_id) w = (Return cached, w1) ->
  truthy cached = true ->
  get_product product_id w = (Return (Cached cached), w1).
Proof.
  intros Hget Hhit. unfold get_product, bind. cbv zeta. by rewrite Hget, Hhit.
Qed.

Lemma json_dumps_truthy row :
  exists doc, json_dumps row = JsonText doc /\ truthy doc = true.
Proof. eexists. by split. Qed.

(** What the program has cached it serves: an entry written by
    [redis_set_json] is a hit whenever Redis answers. *)
Lemma get_product_serves_cached_row w product_id row ttl :
  entries (redis w) !! cache_key product_id = Some (json_dumps row, ttl) ->
  redis_answers w ->
  exists doc,
    json_dumps row = JsonText doc /\
    get_product product_id w
      = (Return (Cached doc), redis_called (RedisGet (cache_key product_id)) w).
Proof.
  intros Hin Hup. destruct (json_dumps_truthy row) as (doc & Hdoc & Htrue).
  exists doc. split; [done|]. apply get_product_hit; [|done].
  rewrite Hdoc in Hin. rewrite <- redis_get_json_world.
  destruct w as [[es fs] p rp lg]. unfold redis_answers in Hup. cbn in Hin, Hup.
  unfold redis_get_json, try_except, bind, r_get, emit, redis_call.
  destruct fs as [|[c|] fs]; cbn in *; rewrite ?Hin; done.
Qed.


Lemma get_product_replica_answers w product_id cached w1 row w2 :
  redis_get_json (cache_key product_id) w = (Return cached, w1) ->
  truthy cached = false ->
  fetch_product_from_db REPLICA_DSN product_id w1 = (Return row, w2) ->
  get_product product_id w =
    match row with
    | None => (Raise not_found, w2)
    | Some r => cache_and_return product_id r w2
    end.
Proof.
  intros Hget Hmiss Hrep. unfold get_product, bind, try_except. cbv zeta.
  rewrite Hget, Hmiss, Hrep. by destruct row.
Qed.

Lemma get_product_replica_raises w product_id cached w1 e w2 :
  redis_get_json (cache_key product_id) w = (Return cached, w1) ->
  truthy cached = false ->
  fetch_product_from_db REPLICA_DSN product_id w1 = (Raise e, w2) ->
  get_product product_id w =
    if isinstance e pg_except then
      match fetch_product_from_db PRIMARY_DSN product_id w2 with
      | (Return None, w3) => (Raise not_found, w3)
      | (Return (Some r), w3) => cache_and_return product_id r w3
      | (Raise e2, w3) =>
          if isinstance e2 pg_except
          then (Raise (HTTPException 503 ("Database unavailable: " +:+ exn_name e2)), w3)
          else (Raise e2, w3)
      end
    else (Raise e, w2).
Proof.
  intros Hget Hmiss Hrep. unfold get_product, bind, try_except. cbv zeta.
  rewrite Hget, Hmiss, Hrep. destruct (isinstance e pg_except); [|done].
  destruct (fetch_product_from_db PRIMARY_DSN product_id w2) as [[[r|]|e2] w3]; try done.
  by destruct (isinstance e2 pg_except).
Qed.

Lemma cache_and_return_spec product_id row w :
  let r := cache_and_return product_id row w in
  log (snd r) = log w ++ [RedisSetex (cache_key product_id) CACHE_TTL_SECONDS (json_dumps row)] /\
  primary (snd r) = primary w /\ replica (snd r) = replica w /\
  entries (redis (snd r)) =
    match fst (pop_fault (redis_faults (redis w))) with
    | None => <[cache_key product_id := (json_dumps row, CACHE_TTL_SECONDS)]> (entries (redis w))
    | Some _ => entries (redis w)
    end /\
  (forall c, fst (pop_fault (redis_faults (redis w))) = Some c ->
             fst r = if isinstance (Raised c) redis_except
                     then Return (Row row) else Raise (Raised c)) /\
  (redis_answers w -> fst r = Return (Row row)).
Proof.
  pose proof (redis_set_json_spec (cache_key product_id) row CACHE_TTL_SECONDS w) as H.
  cbv zeta in *. destruct H as (Hlog & Hp & Hr & He & Hc & Ha).
  unfold bind, ret.
  destruct (redis_set_json (cache_key product_id) row CACHE_TTL_SECONDS w) as [[[]|e] w'];
    cbn in *; repeat split; trivial.
  - intros c Hf. specialize (Hc c Hf).
    destruct (isinstance (Raised c) redis_except); by simplify_eq.
  - intros c Hf. specialize (Hc c Hf).
    destruct (isinstance (Raised c) redis_except); by simplify_eq.
  - intros H. by specialize (Ha H).
Qed.

Lemma store_calls_snoc_redis_get evs key :
  store_calls (evs ++ [RedisGet key]) = store_calls evs.
Proof. rewrite store_calls_app. cbn. by rewrite app_nil_r. Qed.

Lemma store_calls_cache_and_return product_id row w :
  store_calls (log (snd (cache_and_return product_id row w))) = store_calls (log w).
Proof.
  destruct (cache_and_return_spec product_id row w) as (-> & _).
  rewrite store_calls_app. cbn. by rewrite app_nil_r.
Qed.

Lemma get_product_round_trips_fallback w product_id cached w1 e w2 :
  redis_get_json (cache_key product_id) w = (Return cached, w1) ->
  truthy cached = false ->
  fetch_product_from_db REPLICA_DSN product_id w1 = (Raise e, w2) ->
  isinstance e pg_except = true ->
  store_calls (log (snd (get_product product_id w)))
    = store_calls (log w) ++ [REPLICA_DSN; PRIMARY_DSN].
Proof.
  intros Hget Hmiss Hrep He.
  destruct (redis_get_json_returns _ _ _ _ Hget) as (Hlog & _).
  rewrite (get_product_replica_raises _ _ _ _ _ _ Hget Hmiss Hrep), He.
  destruct (fetch_product_from_db_spec REPLICA_DSN product_id w1) as (Hc & _).
  rewrite Hrep in Hc. cbn in Hc. rewrite Hlog, store_calls_snoc_redis_get in Hc.
  destruct (fetch_product_from_db_spec PRIMARY_DSN product_id w2) as (Hc2 & _).
  destruct (fetch_product_from_db PRIMARY_DSN product_id w2) as [[[r|]|e2] w3];
    cbn in Hc2.
  - rewrite store_calls_cache_and_return, Hc2, Hc. by rewrite <- app_assoc.
  - cbn. rewrite Hc2, Hc. by rewrite <- app_assoc.
  - destruct (isinstance e2 pg_except); cbn; rewrite Hc2, Hc;
      by rewrite <- app_assoc.
Qed.

Lemma get_product_round_trips_replica w product_id cached w1 row w2 :
  redis_get_json (cache_key product_id) w = (Return cached, w1) ->
  truthy cached = false ->
  fetch_product_from_db REPLICA_DSN product_id w1 = (Return row, w2) ->
  store_calls (log (snd (get_product product_id w))) = store_calls (log w) ++ [REPLICA_DSN].
Proof.
  intros Hget Hmiss Hrep.
  destruct (redis_get_json_returns _ _ _ _ Hget) as (Hlog & _).
  rewrite (get_product_replica_answers _ _ _ _ _ _ Hget Hmiss Hrep).
  destruct (fetch_product_from_db_spec REPLICA_DSN product_id w1) as (Hc & _).
  rewrite Hrep in Hc. cbn in Hc. rewrite Hlog, store_calls_snoc_redis_get in Hc.
  destruct row; [rewrite store_calls_cache_and_return|cbn]; congruence.
Qed.

Lemma get_product_miss_reads_store w product_id cached w1 :
  redis_get_json (cache_key product_id) w = (Return cached, w1) ->
  truthy cached = false ->
  exists rest,
    store_calls (log (snd (get_product product_id w)))
      = store_calls (log w) ++ REPLICA_DSN :: rest.
Proof.
  intros Hget Hmiss.
  destruct (fetch_product_from_db REPLICA_DSN product_id w1) as [[row|e] w2] eqn:Hrep.
  - exists []. by apply (get_product_round_trips_replica _ _ _ _ _ _ Hget Hmiss Hrep).
  - destruct (isinstance e pg_except) eqn:He.
    + exists [PRIMARY_DSN].
      by apply (get_product_round_trips_fallback _ _ _ _ _ _ Hget Hmiss Hrep).
    + exists []. rewrite (get_product_replica_raises _ _ _ _ _ _ Hget Hmiss Hrep), He.
      destruct (redis_get_json_returns _ _ _ _ Hget) as (Hlog & _).
      destruct (fetch_product_from_db_spec REPLICA_DSN product_id w1) as (Hc & _).
      rewrite Hrep in Hc. cbn in *.
      by rewrite Hc, Hlog, store_calls_snoc_redis_get.
Qed.


(** C3 (amended): on a cache miss where the replica fetch raises
    [OperationalError] or [InterfaceError] and the primary fetch returns a
    row, [get_product] sends one [SETEX product:{id}] with the configured TTL
    and the serialised row.  When Redis answers that command the row is
    returned and the cache holds it with that TTL; when the command fails
    with an error of the Redis client the row is returned all the same and
    the cache entries are left as they were. *)
Theorem get_product_fallback_populates w product_id cached w1 e w2 row w3 :
  redis_get_json (cache_key product_id) w = (Return cached, w1) ->
  truthy cached = false ->
  fetch_product_from_db REPLICA_DSN product_id w1 = (Raise e, w2) ->
  isinstance e pg_except = true ->
  fetch_product_from_db PRIMARY_DSN product_id w2 = (Return (Some row), w3) ->
  let r := get_product product_id w in
  log (snd r) =
    log w3 ++ [RedisSetex (cache_key product_id) CACHE_TTL_SECONDS (json_dumps row)] /\
  (redis_answers w3 ->
     fst r = Return (Row row) /\
     entries (redis (snd r)) !! cache_key product_id
       = Some (json_dumps row, CACHE_TTL_SECONDS)) /\
  (forall c, fst (pop_fault (redis_faults (redis w3))) = Some c ->
     cache_client_error c ->
     fst r = Return (Row row) /\ entries (redis (snd r)) = entries (redis w)).
Proof.
  intros Hget Hmiss Hrep He Hpri r. subst r.
  rewrite (get_product_replica_raises _ _ _ _ _ _ Hget Hmiss Hrep), He, Hpri.
  destruct (cache_and_return_spec product_id row w3) as (Hlog & _ & _ & Hes & Hc & Ha).
  split; [done|]. split.
  - intros Hup. split; [by apply Ha|].
    rewrite Hes. unfold redis_answers in Hup. rewrite Hup. apply lookup_insert_eq.
  - intros c Hf Hcli. rewrite (Hc c Hf), (client_error_caught c Hcli). split; [done|].
    rewrite Hes, Hf.
    destruct (fetch_product_from_db_spec PRIMARY_DSN product_id w2) as (_ & _ & Hr3 & _).
    destruct (fetch_product_from_db_spec REPLICA_DSN product_id w1) as (_ & _ & Hr2 & _).
    rewrite Hpri in Hr3. rewrite Hrep in Hr2. cbn in Hr2, Hr3.
    destruct (redis_get_json_returns _ _ _ _ Hget) as (_ & Hr1 & _). congruence.
Qed.

(** C4: on a cache miss where the replica fetch and then the primary fetch
    both raise [OperationalError] or [InterfaceError], [get_product] raises
    the 503 [HTTPException] whose detail names the class of the error it
    caught from the fallback; it has opened one connection to the replica and
    one to the primary and no more, has sent no [SETEX] or [DEL], and the
    cache entries are as they were. *)
Theorem get_product_both_unavailable w product_id cached w1 e1 w2 e2 w3 :
  redis_get_json (cache_key product_id) w = (Return cached, w1) ->
  truthy cached = false ->
  fetch_product_from_db REPLICA_DSN product_id w1 = (Raise e1, w2) ->
  isinstance e1 pg_except = true ->
  fetch_product_from_db PRIMARY_DSN product_id w2 = (Raise e2, w3) ->
  isinstance e2 pg_except = true ->
  get_product product_id w =
    (Raise (HTTPException 503 ("Database unavailable: " +:+ exn_name e2)), w3) /\
  store_calls (log w3) = store_calls (log w) ++ [REPLICA_DSN; PRIMARY_DSN] /\
  cache_writes (log w3) = cache_writes (log w) /\
  entries (redis w3) = entries (redis w).
Proof.
  intros Hget Hmiss Hrep He1 Hpri He2.
  destruct (redis_get_json_returns _ _ _ _ Hget) as (Hlog & Hes & _).
  destruct (fetch_product_from_db_spec REPLICA_DSN product_id w1) as (Hc2 & Hw2 & Hr2 & _).
  destruct (fetch_product_from_db_spec PRIMARY_DSN product_id w2) as (Hc3 & Hw3 & Hr3 & _).
  rewrite Hrep in Hc2, Hw2, Hr2. rewrite Hpri in Hc3, Hw3, Hr3. cbn in *.
  repeat split.
  - by rewrite (get_product_replica_raises _ _ _ _ _ _ Hget Hmiss Hrep), He1, Hpri, He2.
  - rewrite Hc3, Hc2, Hlog, store_calls_snoc_redis_get. by rewrite <- app_assoc.
  - rewrite Hw3, Hw2, Hlog, cache_writes_app. cbn. by rewrite app_nil_r.
  - congruence.
Qed.

(** C10: on a cache miss where the replica fetch raises, the primary is
    contacted exactly when the error is an instance of [OperationalError] or
    [InterfaceError].  Any other error leaves [get_product] as it was raised
    by the client library (never as an [HTTPException]), after the single
    connection to the replica. *)
Theorem get_product_replica_error_propagates w product_id cached w1 e w2 :
  redis_get_json (cache_key product_id) w = (Return cached, w1) ->
  truthy cached = false ->
  fetch_product_from_db REPLICA_DSN product_id w1 = (Raise e, w2) ->
  (isinstance e pg_except = false ->
     get_product product_id w = (Raise e, w2) /\
     (exists c, e = Raised c) /\
     store_calls (log w2) = store_calls (log w) ++ [REPLICA_DSN]) /\
  (PRIMARY_DSN ∈ drop (length (store_calls (log w)))
                     (store_calls (log (snd (get_product product_id w))))
   <-> isinstance e pg_except = true).
Proof.
  intros Hget Hmiss Hrep.
  destruct (redis_get_json_returns _ _ _ _ Hget) as (Hlog & _).
  destruct (fetch_product_from_db_spec REPLICA_DSN product_id w1) as (Hc2 & _ & _ & _ & _ & _ & Hraw).
  rewrite Hrep in Hc2, Hraw. cbn in Hc2, Hraw.
  rewrite Hlog, store_calls_snoc_redis_get in Hc2.
  pose proof (get_product_replica_raises _ _ _ _ _ _ Hget Hmiss Hrep) as Hgp.
  pose proof (get_product_round_trips_fallback _ _ _ _ _ _ Hget Hmiss Hrep) as Hcalls.
  destruct (isinstance e pg_except) eqn:He.
  - split; [done|]. split; [done|]. intros _.
    rewrite (Hcalls eq_refl), drop_app_length, !elem_of_cons. tauto.
  - split; [by eauto|]. split; [|done].
    rewrite Hgp. cbn. rewrite Hc2, drop_app_length, list_elem_of_singleton.
    intros H. inversion H.
Qed.

(** ** The write path *)

Lemma update_product_runs w product_id payload :
  is_None (upd_name payload) && is_None (upd_price_cents payload) = false ->
  update_product product_id payload w =
    match primary_write (UpdateById (set_parts payload) product_id) w with
    | (Return None, w1) => (Raise not_found, w1)
    | (Return (Some updated), w1) =>
        (redis_del (cache_key product_id) ;; ret updated) w1
    | (Raise e, w1) =>
        if isinstance e pg_except then (Raise (primary_unavailable e), w1)
        else (Raise e, w1)
    end.
Proof.
  intros Hf. unfold update_product, bind, try_except. rewrite Hf. cbv zeta.
  destruct (primary_write _ w) as [[[u|]|e] w1]; try done.
  by destruct (isinstance e pg_except).
Qed.

(** C7: with neither [name] nor [price_cents] given, [update_product] raises
    the 400 [HTTPException] in the world it started in: nothing was sent to
    the store or to the cache and nothing has changed. *)
Theorem update_product_no_fields w product_id payload :
  upd_name payload = None ->
  upd_price_cents payload = None ->
  update_product product_id payload w
    = (Raise (HTTPException 400 "No fields to update"), w).
Proof.
  intros Hn Hp. unfold update_product. by rewrite Hn, Hp.
Qed.





Lemma set_then_return_spec {A} key row (a : A) w :
  let r := (redis_set_json key row CACHE_TTL_SECONDS ;; ret a) w in
  log (snd r) = log w ++ [RedisSetex key CACHE_TTL_SECONDS (json_dumps row)] /\
  entries (redis (snd r)) =
    match fst (pop_fault (redis_faults (redis w))) with
    | None => <[key := (json_dumps row, CACHE_TTL_SECONDS)]> (entries (redis w))
    | Some _ => entries (redis w)
    end /\
  (forall c, fst (pop_fault (redis_faults (redis w))) = Some c ->
             fst r = if isinstance (Raised c) redis_except
                     then Return a else Raise (Raised c)) /\
  (redis_answers w -> fst r = Return a).
Proof.
  pose proof (redis_set_json_spec key row CACHE_TTL_SECONDS w) as H.
  cbv zeta in *. destruct H as (Hlog & _ & _ & He & Hc & Ha).
  unfold bind, ret.
  destruct (redis_set_json key row CACHE_TTL_SECONDS w) as [[[]|e] w'];
    cbn in *; repeat split; trivial.
  - intros c Hf. specialize (Hc c Hf).
    destruct (isinstance (Raised c) redis_except); by simplify_eq.
  - intros c Hf. specialize (Hc c Hf).
    destruct (isinstance (Raised c) redis_except); by simplify_eq.
  - intros H. by specialize (Ha H).
Qed.

Lemma primary_write_insert w name price_cents row w1 :
  primary_write (InsertProduct name price_cents) w = (Return row, w1) ->
  let created :=
    Product (next_id (db (primary w))) name price_cents (Some (now (db (primary w)))) in
  row = Some created /\
  products (db (primary w1)) !! next_id (db (primary w)) = Some created.
Proof.
  intros H.
  destruct (primary_write_spec (InsertProduct name price_cents) w) as (_ & _ & _ & _ & Hok).
  rewrite H in Hok. destruct (Hok _ eq_refl) as (_ & Hrow & Hdb). cbn in Hrow, Hdb.
  split; [done|]. rewrite Hdb. apply lookup_insert_eq.
Qed.

Lemma create_product_runs w payload :
  create_product payload w =
    match primary_write (InsertProduct (new_name payload) (new_price_cents payload)) w with
    | (Return (Some created), w1) =>
        (redis_set_json (cache_key (id created)) created CACHE_TTL_SECONDS ;;
         ret created) w1
    | (Return None, w1) => (Raise (Raised py_TypeError), w1)
    | (Raise e, w1) =>
        if isinstance e pg_except then (Raise (primary_unavailable e), w1)
        else (Raise e, w1)
    end.
Proof.
  unfold create_product, bind, try_except.
  destruct (primary_write _ w) as [[[u|]|e] w1]; try done.
  by destruct (isinstance e pg_except).
Qed.

(** C6 (amended): when the insert on the primary succeeds, the created row
    has the next value of the id sequence, the name and price of the
    request and a timestamp, and is in the committed table; [create_product]
    then sends one [SETEX product:{id}] with the configured TTL and the
    serialised row.  When Redis answers that command the row is returned and
    the cache holds it; when the command fails with an error of the Redis
    client the row is returned all the same and the cache entries are left
    as they were.  When the insert raises [OperationalError] or
    [InterfaceError], [create_product] raises the 503 [HTTPException]. *)
Theorem create_product_prefills w payload :
  let q := InsertProduct (new_name payload) (new_price_cents payload) in
  (forall row w1, primary_write q w = (Return row, w1) ->
     exists created, row = Some created /\
       id created = next_id (db (primary w)) /\
       name created = new_name payload /\
       price_cents created = new_price_cents payload /\
       is_Some (updated_at created) /\
       products (db (primary w1)) !! id created = Some created /\
       let r := create_product payload w in
       log (snd r) =
         log w ++ [PgConnect PRIMARY_DSN; PgExecute PRIMARY_DSN q; PgCommit PRIMARY_DSN;
                   RedisSetex (cache_key (id created)) CACHE_TTL_SECONDS
                              (json_dumps created)] /\
       (redis_answers w ->
          fst r = Return created /\
          entries (redis (snd r)) !! cache_key (id created)
            = Some (json_dumps created, CACHE_TTL_SECONDS)) /\
       (forall c, fst (pop_fault (redis_faults (redis w))) = Some c ->
          cache_client_error c ->
          fst r = Return created /\ entries (redis (snd r)) = entries (redis w))) /\
  (forall e w1, primary_write q w = (Raise e, w1) ->
     isinstance e pg_except = true ->
     create_product payload w = (Raise (primary_unavailable e), w1)).
Proof.
  intros q. split.
  - intros row w1 Hpw.
    destruct (primary_write_insert _ _ _ _ _ Hpw) as (-> & Hin).
    pose proof (primary_write_spec q w) as (Hre & _ & _ & _ & Hok).
    rewrite Hpw in Hre, Hok. cbn in Hre, Hok. destruct (Hok _ eq_refl) as (Hlog & _).
    eexists. split; [reflexivity|]. cbn [id name price_cents updated_at].
    do 5 (split; [by eauto|]).
    rewrite create_product_runs. fold q. rewrite Hpw. cbn [id].
    match goal with
    | |- context [(redis_set_json ?k ?c _ ;; ret ?a) w1] =>
        destruct (set_then_return_spec k c a w1) as (Hlog' & Hes & Hc & Ha)
    end.
    rewrite Hre in Hes, Hc. unfold redis_answers in *. rewrite Hre in Ha.
    split; [|split].
    + rewrite Hlog', Hlog. by rewrite <- app_assoc.
    + intros Hup. split; [by apply Ha|]. rewrite Hes, Hup. apply lookup_insert_eq.
    + intros c Hf Hcli. rewrite (Hc c Hf), (client_error_caught c Hcli).
      split; [done|]. by rewrite Hes, Hf.
  - intros e w1 Hpw He. rewrite create_product_runs. fold q. by rewrite Hpw, He.
Qed.

(** ** Cache failures *)




Lemma client_faults_next r c :
  client_faults r ->
  fst (pop_fault (redis_faults r)) = Some c ->
  cache_client_error c.
Proof.
  unfold client_faults. destruct (redis_faults r) as [|f fs]; cbn; [done|].
  intros H ->. by apply (Forall_inv H).
Qed.

Lemma set_then_return_benign {A} key row (a : A) w :
  client_faults (redis w) ->
  let r := (redis_set_json key row CACHE_TTL_SECONDS ;; ret a) w in
  fst r = Return a /\ primary (snd r) = primary w /\ replica (snd r) = replica w.
Proof.
  intros Hb r. subst r.
  destruct (set_then_return_spec key row a w) as (_ & _ & Hc & Ha).
  pose proof (redis_set_json_spec key row CACHE_TTL_SECONDS w) as (_ & Hp & Hr & _).
  split.
  - destruct (fst (pop_fault (redis_faults (redis w)))) as [c|] eqn:Hf.
    + rewrite (Hc c eq_refl).
      by rewrite (client_error_caught c (client_faults_next _ _ Hb Hf)).
    + by apply Ha.
  - unfold bind, ret.
    by destruct (redis_set_json key row CACHE_TTL_SECONDS w) as [[[]|e] w'].
Qed.




Lemma client_faults_after_get key w r w1 :
  redis_get_json key w = (r, w1) ->
  client_faults (redis w) -> client_faults (redis w1).
Proof.
  intros H. pose proof (redis_get_json_world key w) as Hw.
  rewrite H in Hw. cbn in Hw. subst w1.
  unfold client_faults, redis_called. cbn.
  destruct (redis_faults (redis w)); cbn; [done|]. apply Forall_inv_tail.
Qed.





(** ** Create, then read *)

Lemma create_product_returns w payload created w1 :
  create_product payload w = (Return created, w1) ->
  created = Product (next_id (db (primary w))) (new_name payload)
                    (new_price_cents payload) (Some (now (db (primary w)))) /\
  products (db (primary w1)) !! id created = Some created.
Proof.
  rewrite create_product_runs.
  destruct (primary_write _ w) as [[[c|]|e] w0] eqn:Hpw.
  - destruct (primary_write_insert _ _ _ _ _ Hpw) as ([= ->] & Hin).
    pose proof (redis_set_json_spec (cache_key (next_id (db (primary w))))
                  (Product (next_id (db (primary w))) (new_name payload)
                     (new_price_cents payload) (Some (now (db (primary w)))))
                  CACHE_TTL_SECONDS w0) as (_ & Hp & _).
    unfold bind, ret. cbn [id] in *.
    destruct (redis_set_json _ _ _ w0) as [[[]|e] w'];
      intros [= <- <-]; cbn in Hp. split; [done|]. cbn [id]. by rewrite Hp.
  - intros [=].
  - destruct (isinstance e pg_except); intros [=].
Qed.

(** C9 (amended): when [create_product] returns a row, the row carries the
    name and price of the request and is in the committed table of the
    primary under its id.  A later [get_product] for that id that misses the
    cache returns that very row when the replica answers and holds it, and
    also when the replica fetch raises [OperationalError] or
    [InterfaceError] and the primary, still holding it, answers.  When the
    replica answers and does not hold the row yet, [get_product] raises the
    404 [HTTPException]. *)
Theorem create_then_get w payload created w1 :
  create_product payload w = (Return created, w1) ->
  name created = new_name payload /\
  price_cents created = new_price_cents payload /\
  products (db (primary w1)) !! id created = Some created /\
  forall w2 cached w3,
    redis_get_json (cache_key (id created)) w2 = (Return cached, w3) ->
    truthy cached = false ->
    client_faults (redis w2) ->
    (forall row w4,
       fetch_product_from_db REPLICA_DSN (id created) w3 = (Return row, w4) ->
       (products (db (replica w2)) !! id created = Some created ->
          fst (get_product (id created) w2) = Return (Row created)) /\
       (products (db (replica w2)) !! id created = None ->
          fst (get_product (id created) w2) = Raise not_found)) /\
    (forall e w4 row w5,
       fetch_product_from_db REPLICA_DSN (id created) w3 = (Raise e, w4) ->
       isinstance e pg_except = true ->
       fetch_product_from_db PRIMARY_DSN (id created) w4 = (Return row, w5) ->
       products (db (primary w2)) !! id created = Some created ->
       fst (get_product (id created) w2) = Return (Row created)).
Proof.
  intros Hc. destruct (create_product_returns _ _ _ _ Hc) as (Hrow & Hin).
  split; [by rewrite Hrow|]. split; [by rewrite Hrow|]. split; [done|].
  intros w2 cached w3 Hget Hmiss Hb.
  destruct (redis_get_json_returns _ _ _ _ Hget) as (_ & _ & Hp3 & Hr3).
  pose proof (client_faults_after_get _ _ _ _ Hget Hb) as Hb3.
  split.
  - intros row w4 Hrep.
    rewrite (get_product_replica_answers _ _ _ _ _ _ Hget Hmiss Hrep).
    pose proof (fetch_product_from_db_spec REPLICA_DSN (id created) w3)
      as (_ & _ & Hre & _ & _ & Hlook & _).
    rewrite Hrep in Hre, Hlook. cbn in Hre, Hlook.
    rewrite (Hlook _ eq_refl), Hr3. split; intros ->; [|done].
    apply set_then_return_benign. by rewrite Hre.
  - intros e w4 row w5 Hrep He Hpri Hheld.
    rewrite (get_product_replica_raises _ _ _ _ _ _ Hget Hmiss Hrep), He, Hpri.
    pose proof (fetch_product_from_db_spec REPLICA_DSN (id created) w3)
      as (_ & _ & Hre & _ & Hoth & _).
    pose proof (fetch_product_from_db_spec PRIMARY_DSN (id created) w4)
      as (_ & _ & Hre' & _ & _ & Hlook & _).
    rewrite Hrep in Hre, Hoth. rewrite Hpri in Hre', Hlook. cbn in Hre, Hoth, Hre', Hlook.
    specialize (Hoth PRIMARY_DSN). cbn in Hoth.
    rewrite (Hlook _ eq_refl), Hoth, Hp3, Hheld by done.
    apply set_then_return_benign. by rewrite Hre', Hre.
Qed.

(** ** Further properties: keys *)

(** X1: [cache_key] sends different product ids to different keys. *)
Theorem cache_key_inj a b :
  a <> b -> cache_key a <> cache_key b.
Proof.
  intros Hne Heq. apply Hne. unfold cache_key in Heq.
  apply (inj (String.app "product:")) in Heq. by apply (inj pretty) in Heq.
Qed.

(** ** Further properties: the read path *)

Lemma get_product_get_raises w product_id e w1 :
  redis_get_json (cache_key product_id) w = (Raise e, w1) ->
  get_product product_id w = (Raise e, w1).
Proof. intros H. unfold get_product, bind. cbv zeta. by rewrite H. Qed.

Lemma snd_set_then_return {A} key row (a : A) w :
  snd ((redis_set_json key row CACHE_TTL_SECONDS ;; ret a) w)
    = snd (redis_set_json key row CACHE_TTL_SECONDS w).
Proof.
  unfold bind, ret. by destruct (redis_set_json key row CACHE_TTL_SECONDS w) as [[[]|e] w'].
Qed.

(** Whatever the three steps of [get_product] preserve, it preserves. *)
Lemma get_product_preserves (R : world -> world -> Prop) product_id :
  (forall w, R w w) ->
  (forall w1 w2 w3, R w1 w2 -> R w2 w3 -> R w1 w3) ->
  (forall w, R w (snd (redis_get_json (cache_key product_id) w))) ->
  (forall d w, R w (snd (fetch_product_from_db d product_id w))) ->
  (forall row w,
     R w (snd (redis_set_json (cache_key product_id) row CACHE_TTL_SECONDS w))) ->
  forall w, R w (snd (get_product product_id w)).
Proof.
  intros Hrefl Htrans Hget Hfetch Hset w.
  pose proof (Hget w) as H1.
  destruct (redis_get_json (cache_key product_id) w) as [[cached|e] w1] eqn:Eget;
    cbn in H1; [|by rewrite (get_product_get_raises _ _ _ _ Eget)].
  destruct (truthy cached) eqn:Ehit; [by rewrite (get_product_hit _ _ _ _ Eget Ehit)|].
  pose proof (Hfetch REPLICA_DSN w1) as H2.
  destruct (fetch_product_from_db REPLICA_DSN product_id w1) as [[row|e] w2] eqn:Erep;
    cbn in H2.
  - rewrite (get_product_replica_answers _ _ _ _ _ _ Eget Ehit Erep).
    destruct row as [r|]; [|by eauto].
    rewrite snd_set_then_return. by eauto.
  - rewrite (get_product_replica_raises _ _ _ _ _ _ Eget Ehit Erep).
    destruct (isinstance e pg_except); [|by eauto].
    pose proof (Hfetch PRIMARY_DSN w2) as H3.
    destruct (fetch_product_from_db PRIMARY_DSN product_id w2) as [[[r|]|e2] w3];
      cbn in H3.
    + rewrite snd_set_then_return. by eauto.
    + by eauto.
    + destruct (isinstance e2 pg_except); by eauto.
Qed.

(** X4: [get_product] only reads the stores: whatever it returns or raises,
    the committed database of the primary and that of the replica are what
    they were. *)
Theorem get_product_read_only w product_id :
  db (primary (snd (get_product product_id w))) = db (primary w) /\
  db (replica (snd (get_product product_id w))) = db (replica w).
Proof.
  apply (get_product_preserves
           (fun w w' => db (primary w') = db (primary w) /\
                        db (replica w') = db (replica w))).
  - done.
  - intros w1 w2 w3 [H1 H2] [H3 H4]. split; congruence.
  - intros w0. rewrite redis_get_json_world. by cbn.
  - intros d w0.
    destruct (fetch_product_from_db_spec d product_id w0) as (_ & _ & _ & Hdb & Hoth & _).
    destruct d; cbn in Hdb.
    + specialize (Hoth REPLICA_DSN). cbn in Hoth. split; [done|]. by rewrite Hoth.
    + specialize (Hoth PRIMARY_DSN). cbn in Hoth. split; [|done]. by rewrite Hoth.
  - intros row w0.
    destruct (redis_set_json_spec (cache_key product_id) row CACHE_TTL_SECONDS w0)
      as (_ & -> & -> & _). done.
Qed.

Lemma redis_commands_app evs evs' :
  redis_commands (evs ++ evs') = redis_commands evs ++ redis_commands evs'.
Proof. apply List.filter_app. Qed.

Lemma fetch_product_from_db_events d product_id w :
  let r := fetch_product_from_db d product_id w in
  exists evs,
    log (snd r) = log w ++ evs /\
    (evs = [PgConnect d] \/
     evs = [PgConnect d; PgExecute d (SelectById product_id)] \/
     evs = [PgConnect d; PgExecute d (SelectById product_id); PgCommit d]) /\
    (forall row, fst r = Return row ->
       evs = [PgConnect d; PgExecute d (SelectById product_id); PgCommit d]).
Proof.
  destruct w as [r [pd pt pf] [rd rt rf] lg].
  unfold fetch_product_from_db, with_conn, conn_commit, conn_rollback, bind,
    psycopg2_connect, cur_execute, pg_call, emit, ret.
  destruct d; cbn.
  - next_fault pf; [ | | next_fault pf; [ | | next_fault pf]];
      rewrite <- ?app_assoc; cbn;
      (eexists; split; [reflexivity|]; split; [by eauto | by intros ? [=]]).
  - next_fault rf; [ | | next_fault rf; [ | | next_fault rf]];
      rewrite <- ?app_assoc; cbn;
      (eexists; split; [reflexivity|]; split; [by eauto | by intros ? [=]]).
Qed.


Lemma fetch_product_from_db_logs d product_id w :
  store_calls (log (snd (fetch_product_from_db d product_id w)))
    = store_calls (log w) ++ [d] /\
  redis_commands (log (snd (fetch_product_from_db d product_id w)))
    = redis_commands (log w).
Proof.
  pose proof (fetch_product_from_db_spec d product_id w) as (Hs & _).
  pose proof (fetch_product_from_db_events d product_id w)
    as (evs & Hlog & Hshape & _).
  cbv zeta in *. split; [exact Hs|]. rewrite Hlog, redis_commands_app.
  destruct Hshape as [-> | [-> | ->]]; cbn; by rewrite app_nil_r.
Qed.

Lemma redis_get_json_logs key w :
  store_calls (log (snd (redis_get_json key w))) = store_calls (log w) /\
  redis_commands (log (snd (redis_get_json key w)))
    = redis_commands (log w) ++ [RedisGet key].
Proof.
  rewrite redis_get_json_world. cbn.
  by rewrite store_calls_snoc_redis_get, redis_commands_app.
Qed.

Lemma cache_and_return_logs product_id row w :
  store_calls (log (snd (cache_and_return product_id row w))) = store_calls (log w) /\
  redis_commands (log (snd (cache_and_return product_id row w)))
    = redis_commands (log w)
      ++ [RedisSetex (cache_key product_id) CACHE_TTL_SECONDS (json_dumps row)].
Proof.
  split; [apply store_calls_cache_and_return|].
  destruct (cache_and_return_spec product_id row w) as (-> & _).
  by rewrite redis_commands_app.
Qed.

(** X5: whatever happens, one [get_product] opens no connection, or one to
    the replica, or one to the replica and then one to the primary, and
    never one to the primary alone.  To Redis it sends the [GET] for the
    key of the id first and after it at most one command, a [SETEX] of a
    serialised row under that key with the configured TTL; it never sends a
    [DEL]. *)
Theorem get_product_trace_shape w product_id :
  let w' := snd (get_product product_id w) in
  (exists calls,
     store_calls (log w') = store_calls (log w) ++ calls /\
     (calls = [] \/ calls = [REPLICA_DSN] \/ calls = [REPLICA_DSN; PRIMARY_DSN])) /\
  (exists cmds,
     redis_commands (log w')
       = redis_commands (log w) ++ RedisGet (cache_key product_id) :: cmds /\
     (cmds = [] \/
      exists row,
        cmds = [RedisSetex (cache_key product_id) CACHE_TTL_SECONDS (json_dumps row)])).
Proof.
  cbv zeta.
  destruct (redis_get_json_logs (cache_key product_id) w) as (Hs1 & Hc1).
  destruct (redis_get_json (cache_key product_id) w) as [[cached|e] w1] eqn:Eget;
    cbn in Hs1, Hc1.
  2: { rewrite (get_product_get_raises _ _ _ _ Eget). cbn. rewrite Hs1, Hc1.
       split; eexists; (split; [by rewrite ?app_nil_r | by eauto]). }
  destruct (truthy cached) eqn:Ehit.
  { rewrite (get_product_hit _ _ _ _ Eget Ehit). cbn. rewrite Hs1, Hc1.
    split; eexists; (split; [by rewrite ?app_nil_r | by eauto]). }
  destruct (fetch_product_from_db_logs REPLICA_DSN product_id w1) as (Hs2 & Hc2).
  destruct (fetch_product_from_db REPLICA_DSN product_id w1) as [[row|e] w2] eqn:Erep;
    cbn in Hs2, Hc2.
  - rewrite (get_product_replica_answers _ _ _ _ _ _ Eget Ehit Erep).
    destruct row as [r|].
    + destruct (cache_and_return_logs product_id r w2) as (-> & ->).
      rewrite Hs2, Hs1, Hc2, Hc1, <- app_assoc.
      split; eexists; (split; [reflexivity | by eauto]).
    + cbn. rewrite Hs2, Hs1, Hc2, Hc1.
      split; eexists; (split; [reflexivity | by eauto]).
  - rewrite (get_product_replica_raises _ _ _ _ _ _ Eget Ehit Erep).
    destruct (isinstance e pg_except).
    2: { cbn. rewrite Hs2, Hs1, Hc2, Hc1.
         split; eexists; (split; [reflexivity | by eauto]). }
    destruct (fetch_product_from_db_logs PRIMARY_DSN product_id w2) as (Hs3 & Hc3).
    destruct (fetch_product_from_db PRIMARY_DSN product_id w2) as [[[r|]|e2] w3];
      cbn in Hs3, Hc3.
    + destruct (cache_and_return_logs product_id r w3) as (-> & ->).
      rewrite Hs3, Hs2, Hs1, Hc3, Hc2, Hc1, <- !app_assoc.
      split; eexists; (split; [reflexivity | by eauto]).
    + cbn. rewrite Hs3, Hs2, Hs1, Hc3, Hc2, Hc1, <- !app_assoc.
      split; eexists; (split; [reflexivity | by eauto]).
    + destruct (isinstance e2 pg_except); cbn;
        rewrite Hs3, Hs2, Hs1, Hc3, Hc2, Hc1, <- !app_assoc;
        (split; eexists; (split; [reflexivity | by eauto])).
Qed.

Lemma fetch_product_from_db_quiet d product_id w :
  cache_writes (log (snd (fetch_product_from_db d product_id w))) = cache_writes (log w) /\
  entries (redis (snd (fetch_product_from_db d product_id w))) = entries (redis w).
Proof.
  destruct (fetch_product_from_db_spec d product_id w) as (_ & Hw & Hr & _).
  split; [done | by rewrite Hr].
Qed.

Lemma redis_get_json_quiet key w :
  cache_writes (log (snd (redis_get_json key w))) = cache_writes (log w) /\
  entries (redis (snd (redis_get_json key w))) = entries (redis w).
Proof.
  rewrite redis_get_json_world. cbn. rewrite cache_writes_app. cbn.
  by rewrite app_nil_r.
Qed.

(** X2: a product that the answering store does not hold is reported and
    not cached.  On a cache miss, when the replica answers without a row,
    [get_product] raises the 404 after that single connection: the primary
    is not asked.  When the replica fetch raises [OperationalError] or
    [InterfaceError] and the primary answers without a row, it raises the
    404 after the two connections.  Either way no [SETEX] or [DEL] is sent
    and the cache entries are as they were. *)
Theorem get_product_not_found w product_id cached w1 :
  redis_get_json (cache_key product_id) w = (Return cached, w1) ->
  truthy cached = false ->
  (forall w2,
     fetch_product_from_db REPLICA_DSN product_id w1 = (Return None, w2) ->
     get_product product_id w = (Raise not_found, w2) /\
     store_calls (log w2) = store_calls (log w) ++ [REPLICA_DSN] /\
     cache_writes (log w2) = cache_writes (log w) /\
     entries (redis w2) = entries (redis w)) /\
  (forall e w2 w3,
     fetch_product_from_db REPLICA_DSN product_id w1 = (Raise e, w2) ->
     isinstance e pg_except = true ->
     fetch_product_from_db PRIMARY_DSN product_id w2 = (Return None, w3) ->
     get_product product_id w = (Raise not_found, w3) /\
     store_calls (log w3) = store_calls (log w) ++ [REPLICA_DSN; PRIMARY_DSN] /\
     cache_writes (log w3) = cache_writes (log w) /\
     entries (redis w3) = entries (redis w)).
Proof.
  intros Hget Hmiss.
  destruct (redis_get_json_logs (cache_key product_id) w) as (Hs1 & _).
  destruct (redis_get_json_quiet (cache_key product_id) w) as (Hw1 & He1).
  rewrite Hget in Hs1, Hw1, He1. cbn in Hs1, Hw1, He1.
  destruct (fetch_product_from_db_logs REPLICA_DSN product_id w1) as (Hs2 & _).
  destruct (fetch_product_from_db_quiet REPLICA_DSN product_id w1) as (Hw2 & He2).
  split.
  - intros w2 Hrep. rewrite Hrep in Hs2, Hw2, He2. cbn in Hs2, Hw2, He2.
    rewrite (get_product_replica_answers _ _ _ _ _ _ Hget Hmiss Hrep).
    repeat split; congruence.
  - intros e w2 w3 Hrep He Hpri. rewrite Hrep in Hs2, Hw2, He2. cbn in Hs2, Hw2, He2.
    destruct (fetch_product_from_db_logs PRIMARY_DSN product_id w2) as (Hs3 & _).
    destruct (fetch_product_from_db_quiet PRIMARY_DSN product_id w2) as (Hw3 & He3).
    rewrite Hpri in Hs3, Hw3, He3. cbn in Hs3, Hw3, He3.
    rewrite (get_product_replica_raises _ _ _ _ _ _ Hget Hmiss Hrep), He, Hpri.
    repeat split; try congruence.
    rewrite Hs3, Hs2, Hs1. by rewrite <- app_assoc.
Qed.

(** X3: on a cache miss where the replica answers with a row, that row is
    the one the replica's committed table holds under the id;
    [get_product] opens the one connection to the replica and none to the
    primary and sends one [SETEX] of the serialised row under the key of
    the id with the configured TTL.  When Redis answers the [SETEX] the row
    is returned and the cache holds it. *)
Theorem get_product_replica_populates w product_id cached w1 row w2 :
  redis_get_json (cache_key product_id) w = (Return cached, w1) ->
  truthy cached = false ->
  fetch_product_from_db REPLICA_DSN product_id w1 = (Return (Some row), w2) ->
  let r := get_product product_id w in
  products (db (replica w)) !! product_id = Some row /\
  log (snd r) =
    log w2 ++ [RedisSetex (cache_key product_id) CACHE_TTL_SECONDS (json_dumps row)] /\
  store_calls (log (snd r)) = store_calls (log w) ++ [REPLICA_DSN] /\
  (redis_answers w2 ->
     fst r = Return (Row row) /\
     entries (redis (snd r)) !! cache_key product_id
       = Some (json_dumps row, CACHE_TTL_SECONDS)).
Proof.
  intros Hget Hmiss Hrep r. subst r.
  destruct (redis_get_json_returns _ _ _ _ Hget) as (_ & _ & _ & Hr1).
  pose proof (fetch_product_from_db_spec REPLICA_DSN product_id w1)
    as (_ & _ & _ & _ & _ & Hlook & _).
  rewrite Hrep in Hlook. cbn in Hlook. specialize (Hlook _ eq_refl).
  split; [by rewrite <- Hr1|].
  split; [|split].
  - rewrite (get_product_replica_answers _ _ _ _ _ _ Hget Hmiss Hrep).
    by destruct (cache_and_return_spec product_id row w2) as (-> & _).
  - by apply (get_product_round_trips_replica _ _ _ _ _ _ Hget Hmiss Hrep).
  - intros Hup. rewrite (get_product_replica_answers _ _ _ _ _ _ Hget Hmiss Hrep).
    destruct (cache_and_return_spec product_id row w2) as (_ & _ & _ & Hes & _ & Ha).
    split; [by apply Ha|]. unfold redis_answers in Hup.
    rewrite Hes, Hup. apply lookup_insert_eq.
Qed.

(** X17: on a cache miss where the replica fetch raises [OperationalError]
    or [InterfaceError] and the primary fetch raises an error of any other
    class, [get_product] lets that error through as the client library
    raised it (no [HTTPException]), after the two connections and without
    any [SETEX] or [DEL]. *)
Theorem get_product_primary_error_propagates w product_id cached w1 e w2 e2 w3 :
  redis_get_json (cache_key product_id) w = (Return cached, w1) ->
  truthy cached = false ->
  fetch_product_from_db REPLICA_DSN product_id w1 = (Raise e, w2) ->
  isinstance e pg_except = true ->
  fetch_product_from_db PRIMARY_DSN product_id w2 = (Raise e2, w3) ->
  isinstance e2 pg_except = false ->
  get_product product_id w = (Raise e2, w3) /\
  (exists c, e2 = Raised c) /\
  store_calls (log w3) = store_calls (log w) ++ [REPLICA_DSN; PRIMARY_DSN] /\
  cache_writes (log w3) = cache_writes (log w).
Proof.
  intros Hget Hmiss Hrep He Hpri He2.
  destruct (redis_get_json_logs (cache_key product_id) w) as (Hs1 & _).
  destruct (redis_get_json_quiet (cache_key product_id) w) as (Hw1 & _).
  rewrite Hget in Hs1, Hw1. cbn in Hs1, Hw1.
  destruct (fetch_product_from_db_logs REPLICA_DSN product_id w1) as (Hs2 & _).
  destruct (fetch_product_from_db_quiet REPLICA_DSN product_id w1) as (Hw2 & _).
  rewrite Hrep in Hs2, Hw2. cbn in Hs2, Hw2.
  destruct (fetch_product_from_db_logs PRIMARY_DSN product_id w2) as (Hs3 & _).
  destruct (fetch_product_from_db_quiet PRIMARY_DSN product_id w2) as (Hw3 & _).
  pose proof (fetch_product_from_db_spec PRIMARY_DSN product_id w2)
    as (_ & _ & _ & _ & _ & _ & Hraw).
  rewrite Hpri in Hs3, Hw3, Hraw. cbn in Hs3, Hw3, Hraw.
  rewrite (get_product_replica_raises _ _ _ _ _ _ Hget Hmiss Hrep), He, Hpri, He2.
  repeat split; try congruence; [by eauto|].
  rewrite Hs3, Hs2, Hs1. by rewrite <- app_assoc.
Qed.

(** ** Further properties: what the cache hands back *)

Lemma redis_get_json_answered key w :
  redis_answers w ->
  fst (redis_get_json key w) =
    match fst <$> entries (redis w) !! key with
    | Some (JsonText doc) => Return doc
    | Some EmptyText | None => Return JNull
    | Some (OtherText _) => Raise (Raised json_JSONDecodeError)
    end.
Proof.
  destruct w as [[es fs] p rp lg]. unfold redis_answers. cbn. intros Hup.
  unfold redis_get_json, try_except, bind, r_get, emit, redis_call.
  destruct fs as [|[c|] fs]; cbn in *; try done;
    by destruct (es !! key) as [[[| |] ?]|].
Qed.

Lemma redis_get_json_raises_raw key w e w1 :
  redis_get_json key w = (Raise e, w1) -> exists c, e = Raised c.
Proof.
  destruct w as [[es fs] p rp lg].
  unfold redis_get_json, try_except, bind, r_get, emit, redis_call.
  destruct fs as [|[c|] fs]; cbn.
  - destruct (es !! key) as [[[| |] ?]|]; cbn; intros [=]; subst; by eauto.
  - case_if; cbn; intros [=]; subst; by eauto.
  - destruct (es !! key) as [[[| |] ?]|]; cbn; intros [=]; subst; by eauto.
Qed.

(** X6: an entry that holds the empty string, or a JSON document whose
    value Python treats as false ([null], [0], [false], an empty string,
    array or object), is not served: [redis_get_json] hands back a false
    value and [get_product] goes on to open a connection to the replica. *)
Theorem get_product_falsy_entry_is_miss w product_id value ttl :
  entries (redis w) !! cache_key product_id = Some (value, ttl) ->
  redis_answers w ->
  value = EmptyText \/ (exists doc, value = JsonText doc /\ truthy doc = false) ->
  exists cached,
    fst (redis_get_json (cache_key product_id) w) = Return cached /\
    truthy cached = false /\
    exists rest,
      store_calls (log (snd (get_product product_id w)))
        = store_calls (log w) ++ REPLICA_DSN :: rest.
Proof.
  intros Hin Hup Hfalsy.
  pose proof (redis_get_json_answered (cache_key product_id) w Hup) as Hres.
  rewrite Hin in Hres. cbn in Hres.
  assert (exists cached, fst (redis_get_json (cache_key product_id) w) = Return cached
                         /\ truthy cached = false) as (cached & Hc & Hmiss).
  { destruct Hfalsy as [-> | (doc & -> & Hf)]; eauto. }
  exists cached. split; [done|]. split; [done|].
  destruct (redis_get_json (cache_key product_id) w) as [r w1] eqn:Hget.
  cbn in Hc. subst r. by apply (get_product_miss_reads_store _ _ _ _ Hget).
Qed.

(** X7: an entry that is not JSON makes [json.loads] raise
    [JSONDecodeError], which none of the [except] clauses catches:
    [redis_get_json] raises it and so does [get_product], right after the
    Redis [GET] and without any store call. *)
Theorem get_product_undecodable_entry w product_id s ttl :
  entries (redis w) !! cache_key product_id = Some (OtherText s, ttl) ->
  redis_answers w ->
  redis_get_json (cache_key product_id) w
    = (Raise (Raised json_JSONDecodeError),
       redis_called (RedisGet (cache_key product_id)) w) /\
  get_product product_id w
    = (Raise (Raised json_JSONDecodeError),
       redis_called (RedisGet (cache_key product_id)) w) /\
  store_calls (log (snd (get_product product_id w))) = store_calls (log w).
Proof.
  intros Hin Hup.
  pose proof (redis_get_json_answered (cache_key product_id) w Hup) as Hres.
  rewrite Hin in Hres. cbn in Hres.
  assert (Hget : redis_get_json (cache_key product_id) w
                 = (Raise (Raised json_JSONDecodeError),
                    redis_called (RedisGet (cache_key product_id)) w)).
  { rewrite <- redis_get_json_world, <- Hres.
    by destruct (redis_get_json (cache_key product_id) w). }
  split; [done|]. rewrite (get_product_get_raises _ _ _ _ Hget).
  split; [done|]. cbn. apply store_calls_snoc_redis_get.
Qed.

(** X8: what is written is what is read.  After a [redis_set_json] that
    Redis answers, a [redis_get_json] of the same key that Redis answers
    returns the row as a JSON object with its four fields, [updated_at]
    being the string that [str] gives for the timestamp (or [null]).
    After a [redis_del] that Redis answers, it returns [None]. *)
Theorem cache_helpers_round_trip key row ttl w :
  redis_answers w ->
  (redis_answers (snd (redis_set_json key row ttl w)) ->
   fst (redis_get_json key (snd (redis_set_json key row ttl w)))
     = Return (JObj [("id", JInt (id row));
                     ("name", JStr (name row));
                     ("price_cents", JInt (price_cents row));
                     ("updated_at", match updated_at row with
                                    | Some t => JStr (str_datetime t)
                                    | None => JNull
                                    end)])) /\
  (redis_answers (snd (redis_del key w)) ->
   fst (redis_get_json key (snd (redis_del key w))) = Return JNull).
Proof.
  intros Hup. split; intros Hup'.
  - rewrite (redis_get_json_answered _ _ Hup').
    destruct (redis_set_json_spec key row ttl w) as (_ & _ & _ & -> & _).
    unfold redis_answers in Hup. rewrite Hup, lookup_insert_eq. reflexivity.
  - rewrite (redis_get_json_answered _ _ Hup').
    destruct (redis_del_spec key w) as (_ & _ & _ & -> & _).
    unfold redis_answers in Hup. rewrite Hup, lookup_delete_eq. reflexivity.
Qed.

(** ** Further properties: the write path *)

Lemma primary_write_logs q w :
  store_calls (log (snd (primary_write q w))) = store_calls (log w) ++ [PRIMARY_DSN] /\
  redis_commands (log (snd (primary_write q w))) = redis_commands (log w).
Proof.
  destruct w as [r [pd pt pf] rp lg].
  unfold primary_write, get_primary_conn, with_conn, conn_commit, conn_rollback,
    bind, psycopg2_connect, cur_execute, pg_call, emit, ret, store_calls, redis_commands.
  cbn. destruct (run_statement q pd) as [rows d'] eqn:Hq.
  next_fault pf; rewrite ?Hq; cbn;
    [ | | next_fault pf; rewrite ?Hq; cbn; [ | | next_fault pf; rewrite ?Hq; cbn]];
    rewrite ?omap_app, ?List.filter_app, <- ?app_assoc, ?app_nil_r; cbn;
    by rewrite ?app_nil_r.
Qed.

Lemma del_then_return_spec {A} key (a : A) w :
  let r := (redis_del key ;; ret a) w in
  log (snd r) = log w ++ [RedisDelete key] /\
  primary (snd r) = primary w /\ replica (snd r) = replica w /\
  entries (redis (snd r)) =
    match fst (pop_fault (redis_faults (redis w))) with
    | None => delete key (entries (redis w))
    | Some _ => entries (redis w)
    end /\
  (fst r = Return a \/ exists c, fst r = Raise (Raised c)).
Proof.
  pose proof (redis_del_spec key w) as (Hlog & Hp & Hr & He & Hc & Ha).
  unfold bind, ret. cbv zeta.
  destruct (redis_del key w) as [[[]|e] w'] eqn:Hd; cbn in *; repeat split; trivial.
  - by left.
  - right. destruct (fst (pop_fault (redis_faults (redis w)))) as [c|] eqn:Hf.
    + specialize (Hc c eq_refl).
      destruct (isinstance (Raised c) redis_except); simplify_eq. by eauto.
    + by specialize (Ha Hf).
Qed.

Lemma update_product_returns w product_id payload updated w' :
  update_product product_id payload w = (Return updated, w') ->
  is_None (upd_name payload) && is_None (upd_price_cents payload) = false /\
  exists w1,
    primary_write (UpdateById (set_parts payload) product_id) w
      = (Return (Some updated), w1) /\
    primary w' = primary w1 /\ replica w' = replica w1 /\
    entries (redis w') =
      match fst (pop_fault (redis_faults (redis w1))) with
      | None => delete (cache_key product_id) (entries (redis w1))
      | Some _ => entries (redis w1)
      end.
Proof.
  intros Hrun.
  destruct (is_None (upd_name payload) && is_None (upd_price_cents payload)) eqn:Hf.
  { unfold update_product in Hrun. by rewrite Hf in Hrun. }
  split; [done|]. rewrite (update_product_runs _ _ _ Hf) in Hrun.
  destruct (primary_write _ w) as [[[u|]|e] w1] eqn:Hpw.
  - exists w1.
    pose proof (del_then_return_spec (cache_key product_id) u w1)
      as (_ & Hp & Hr & He & _).
    rewrite Hrun in Hp, Hr, He. cbn in Hp, Hr, He.
    assert (u = updated) as ->.
    { unfold bind, ret in Hrun.
      destruct (redis_del (cache_key product_id) w1) as [[[]|e] w2]; congruence. }
    by repeat split.
  - discriminate.
  - destruct (isinstance e pg_except); discriminate.
Qed.

(** X11: an update changes the fields it was given and nothing else.  When
    [update_product] returns a row, the primary held a row under the id;
    the returned row has the same [id], the new [name] if one was given and
    the old one otherwise, likewise for [price_cents], and the store's
    clock as [updated_at].  The committed table of the primary is the old
    one with that row under the id, and the replica is untouched. *)
Theorem update_product_changes_given_fields w product_id payload updated w' :
  update_product product_id payload w = (Return updated, w') ->
  exists old,
    products (db (primary w)) !! product_id = Some old /\
    id updated = id old /\
    name updated = default (name old) (upd_name payload) /\
    price_cents updated = default (price_cents old) (upd_price_cents payload) /\
    updated_at updated = Some (now (db (primary w))) /\
    products (db (primary w'))
      = <[product_id := updated]> (products (db (primary w))) /\
    replica w' = replica w.
Proof.
  intros Hrun.
  destruct (update_product_returns _ _ _ _ _ Hrun) as (_ & w1 & Hpw & Hp & Hr & _).
  pose proof (primary_write_spec (UpdateById (set_parts payload) product_id) w)
    as (_ & Hrep & _ & _ & Hok).
  rewrite Hpw in Hrep, Hok. cbn in Hrep, Hok.
  destruct (Hok _ eq_refl) as (_ & Hrow & Hdb). cbn in Hrow, Hdb.
  destruct (products (db (primary w)) !! product_id) as [old|]; [|discriminate].
  exists old. cbn in Hrow, Hdb. injection Hrow as Hrow.
  rewrite Hp, Hr, Hdb, Hrep. cbn. rewrite <- Hrow.
  split; [done|]. rewrite Hrow. unfold set_parts.
  destruct (upd_name payload), (upd_price_cents payload); by cbn.
Qed.

(** X12: an update of an id the primary does not hold.  With a field given
    and the primary answering, [update_product] raises the 404; the
    committed database is what it was and nothing has been sent to
    Redis: the cache entry of that id, if any, is not deleted. *)
Theorem update_product_not_found w product_id payload row w1 :
  is_None (upd_name payload) && is_None (upd_price_cents payload) = false ->
  primary_write (UpdateById (set_parts payload) product_id) w = (Return row, w1) ->
  products (db (primary w)) !! product_id = None ->
  update_product product_id payload w = (Raise not_found, w1) /\
  db (primary w1) = db (primary w) /\
  redis w1 = redis w /\
  redis_commands (log w1) = redis_commands (log w).
Proof.
  intros Hf Hpw Hnone.
  pose proof (primary_write_spec (UpdateById (set_parts payload) product_id) w)
    as (Hre & _ & _ & _ & Hok).
  destruct (primary_write_logs (UpdateById (set_parts payload) product_id) w) as (_ & Hc).
  rewrite Hpw in Hre, Hok, Hc. cbn in Hre, Hok, Hc.
  destruct (Hok _ eq_refl) as (_ & Hrow & Hdb). cbn in Hrow, Hdb.
  rewrite Hnone in Hrow, Hdb. cbn in Hrow, Hdb. subst row.
  rewrite (update_product_runs _ _ _ Hf), Hpw. by repeat split.
Qed.


(** X14: the write handlers talk to the primary only.  Whatever happens,
    [update_product] opens no connection (the 400) or one to the primary,
    sends Redis nothing or the one [DEL] for the key of the id, and never a
    [GET] or a [SETEX]; [create_product] opens one connection to the
    primary and sends Redis nothing or the one [SETEX] of a serialised row
    under the key of that row's id with the configured TTL.  Neither
    touches the replica. *)
Theorem write_handlers_traffic w :
  (forall product_id payload,
     let w' := snd (update_product product_id payload w) in
     (store_calls (log w') = store_calls (log w) \/
      store_calls (log w') = store_calls (log w) ++ [PRIMARY_DSN]) /\
     (redis_commands (log w') = redis_commands (log w) \/
      redis_commands (log w')
        = redis_commands (log w) ++ [RedisDelete (cache_key product_id)]) /\
     replica w' = replica w) /\
  (forall payload,
     let w' := snd (create_product payload w) in
     store_calls (log w') = store_calls (log w) ++ [PRIMARY_DSN] /\
     (redis_commands (log w') = redis_commands (log w) \/
      exists created,
        redis_commands (log w')
          = redis_commands (log w)
            ++ [RedisSetex (cache_key (id created)) CACHE_TTL_SECONDS
                           (json_dumps created)]) /\
     replica w' = replica w).
Proof.
  split.
  - intros product_id payload. cbv zeta.
    destruct (is_None (upd_name payload) && is_None (upd_price_cents payload)) eqn:Hf.
    { unfold update_product. rewrite Hf. cbn. by eauto. }
    rewrite (update_product_runs _ _ _ Hf).
    set (q := UpdateById (set_parts payload) product_id).
    destruct (primary_write_logs q w) as (Hs & Hc).
    pose proof (primary_write_spec q w) as (_ & Hrep & _).
    destruct (primary_write q w) as [[[u|]|e] w1]; cbn in Hs, Hc, Hrep.
    + pose proof (del_then_return_spec (cache_key product_id) u w1)
        as (Hlog & _ & Hr & _).
      cbv zeta in Hlog, Hr. rewrite Hlog, Hr, store_calls_app, redis_commands_app.
      cbn. rewrite app_nil_r, Hs, Hc. by eauto.
    + cbn. by eauto.
    + destruct (isinstance e pg_except); cbn; by eauto.
  - intros payload. cbv zeta. rewrite create_product_runs.
    set (q := InsertProduct (new_name payload) (new_price_cents payload)).
    destruct (primary_write_logs q w) as (Hs & Hc).
    pose proof (primary_write_spec q w) as (_ & Hrep & _).
    destruct (primary_write q w) as [[[u|]|e] w1]; cbn in Hs, Hc, Hrep.
    + destruct (set_then_return_spec (cache_key (id u)) u u w1) as (Hlog & _).
      rewrite snd_set_then_return in *.
      destruct (redis_set_json_spec (cache_key (id u)) u CACHE_TTL_SECONDS w1)
        as (_ & _ & Hr & _).
      rewrite Hlog, Hr, store_calls_app, redis_commands_app.
      cbn. rewrite app_nil_r, Hs, Hc. by eauto.
    + cbn. by eauto.
    + destruct (isinstance e pg_except); cbn; by eauto.
Qed.

(** X10: a request for one product leaves the cache entries under every
    other key as they were, whatever the request's outcome:
    [get_product] and [update_product] can change only the entry under
    the key of their id, and [create_product] only the entry under the key
    of the id the store assigns. *)
Theorem other_cache_entries_untouched w key' :
  (forall product_id,
     key' <> cache_key product_id ->
     entries (redis (snd (get_product product_id w))) !! key'
       = entries (redis w) !! key') /\
  (forall product_id payload,
     key' <> cache_key product_id ->
     entries (redis (snd (update_product product_id payload w))) !! key'
       = entries (redis w) !! key') /\
  (forall payload,
     key' <> cache_key (next_id (db (primary w))) ->
     entries (redis (snd (create_product payload w))) !! key'
       = entries (redis w) !! key').
Proof.
  split; [|split].
  - intros product_id Hne.
    apply (get_product_preserves
             (fun w w' => entries (redis w') !! key' = entries (redis w) !! key')).
    + done.
    + intros w1 w2 w3 H1 H2. congruence.
    + intros w0. by destruct (redis_get_json_quiet (cache_key product_id) w0) as (_ & ->).
    + intros d w0. by destruct (fetch_product_from_db_quiet d product_id w0) as (_ & ->).
    + intros row w0.
      destruct (redis_set_json_spec (cache_key product_id) row CACHE_TTL_SECONDS w0)
        as (_ & _ & _ & -> & _).
      destruct (fst (pop_fault (redis_faults (redis w0)))); [done|].
      by rewrite lookup_insert_ne.
  - intros product_id payload Hne.
    destruct (is_None (upd_name payload) && is_None (upd_price_cents payload)) eqn:Hf.
    { unfold update_product. by rewrite Hf. }
    rewrite (update_product_runs _ _ _ Hf).
    pose proof (primary_write_spec (UpdateById (set_parts payload) product_id) w)
      as (Hre & _).
    destruct (primary_write _ w) as [[[u|]|e] w1]; cbn in Hre.
    + pose proof (del_then_return_spec (cache_key product_id) u w1)
        as (_ & _ & _ & He & _).
      cbv zeta in He. rewrite He, Hre.
      destruct (fst (pop_fault (redis_faults (redis w)))); [done|].
      by rewrite lookup_delete_ne.
    + cbn. by rewrite Hre.
    + destruct (isinstance e pg_except); cbn; by rewrite Hre.
  - intros payload Hne. rewrite create_product_runs.
    set (q := InsertProduct (new_name payload) (new_price_cents payload)).
    pose proof (primary_write_spec q w) as (Hre & _ & _ & _ & Hok).
    destruct (primary_write q w) as [[[u|]|e] w1] eqn:Hpw; cbn in Hre, Hok.
    + destruct (primary_write_insert _ _ _ _ _ Hpw) as ([= ->] & _).
      rewrite snd_set_then_return. cbn [id].
      match goal with
      | |- context [redis_set_json ?k ?r _ w1] =>
          destruct (redis_set_json_spec k r CACHE_TTL_SECONDS w1) as (_ & _ & _ & -> & _)
      end.
      rewrite Hre.
      destruct (fst (pop_fault (redis_faults (redis w)))); [done|].
      by rewrite lookup_insert_ne.
    + cbn. by rewrite Hre.
    + destruct (isinstance e pg_except); cbn; by rewrite Hre.
Qed.

(** ** Further properties: what the handlers raise *)

Lemma cache_and_return_raises_raw product_id row w e :
  fst (cache_and_return product_id row w) = Raise e -> exists c, e = Raised c.
Proof.
  destruct (cache_and_return_spec product_id row w) as (_ & _ & _ & _ & Hc & Ha).
  destruct (fst (pop_fault (redis_faults (redis w)))) as [c|] eqn:Hf.
  - rewrite (Hc c eq_refl).
    destruct (isinstance (Raised c) redis_except); intros [=]; subst; by eauto.
  - by rewrite (Ha Hf).
Qed.

(** X15: the errors of the three handlers.  [get_product] raises nothing
    but the 404, the 503 naming an [OperationalError] or [InterfaceError]
    caught from the primary, or an error of a client library as it was
    raised; [update_product] nothing but the 400, the 404, the 503 naming
    such an error, or a library error; [create_product] nothing but that
    503 or a library error, never a 404 or a 400. *)
Theorem handler_errors w e w' :
  (forall product_id,
     get_product product_id w = (Raise e, w') ->
     e = not_found \/
     (exists e2, isinstance e2 pg_except = true /\
                 e = HTTPException 503 ("Database unavailable: " +:+ exn_name e2)) \/
     (exists c, e = Raised c)) /\
  (forall product_id payload,
     update_product product_id payload w = (Raise e, w') ->
     e = HTTPException 400 "No fields to update" \/
     e = not_found \/
     (exists e2, isinstance e2 pg_except = true /\ e = primary_unavailable e2) \/
     (exists c, e = Raised c)) /\
  (forall payload,
     create_product payload w = (Raise e, w') ->
     (exists e2, isinstance e2 pg_except = true /\ e = primary_unavailable e2) \/
     (exists c, e = Raised c)).
Proof.
  split; [|split].
  - intros product_id Hrun.
    destruct (redis_get_json (cache_key product_id) w) as [[cached|e0] w1] eqn:Eget.
    2: { rewrite (get_product_get_raises _ _ _ _ Eget) in Hrun. injection Hrun as <- <-.
         right. right. by apply (redis_get_json_raises_raw _ _ _ _ Eget). }
    destruct (truthy cached) eqn:Ehit.
    { by rewrite (get_product_hit _ _ _ _ Eget Ehit) in Hrun. }
    pose proof (fetch_product_from_db_spec REPLICA_DSN product_id w1)
      as (_ & _ & _ & _ & _ & _ & Hraw).
    destruct (fetch_product_from_db REPLICA_DSN product_id w1) as [[row|e1] w2] eqn:Erep;
      cbn in Hraw.
    + rewrite (get_product_replica_answers _ _ _ _ _ _ Eget Ehit Erep) in Hrun.
      destruct row as [r|]; [|injection Hrun as <- <-; by left].
      right. right. apply (cache_and_return_raises_raw product_id r w2). by rewrite Hrun.
    + rewrite (get_product_replica_raises _ _ _ _ _ _ Eget Ehit Erep) in Hrun.
      destruct (isinstance e1 pg_except).
      2: { injection Hrun as <- <-. right. right. by apply Hraw. }
      pose proof (fetch_product_from_db_spec PRIMARY_DSN product_id w2)
        as (_ & _ & _ & _ & _ & _ & Hraw2).
      destruct (fetch_product_from_db PRIMARY_DSN product_id w2) as [[[r|]|e2] w3];
        cbn in Hraw2.
      * right. right. apply (cache_and_return_raises_raw product_id r w3). by rewrite Hrun.
      * injection Hrun as <- <-. by left.
      * destruct (isinstance e2 pg_except) eqn:He2; injection Hrun as <- <-.
        -- right. left. by eauto.
        -- right. right. by apply Hraw2.
  - intros product_id payload Hrun.
    destruct (is_None (upd_name payload) && is_None (upd_price_cents payload)) eqn:Hf.
    { unfold update_product in Hrun. rewrite Hf in Hrun. injection Hrun as <- <-. by left. }
    rewrite (update_product_runs _ _ _ Hf) in Hrun.
    pose proof (primary_write_spec (UpdateById (set_parts payload) product_id) w)
      as (_ & _ & _ & Herr & _).
    destruct (primary_write _ w) as [[[u|]|e1] w1]; cbn in Herr.
    + pose proof (del_then_return_spec (cache_key product_id) u w1)
        as (_ & _ & _ & _ & Hres).
      cbv zeta in Hres. rewrite Hrun in Hres. cbn in Hres.
      destruct Hres as [[=] | (c & [= ->])]. right. right. right. by eauto.
    + injection Hrun as <- <-. right. by left.
    + destruct (Herr _ eq_refl) as (_ & c & ->).
      destruct (isinstance (Raised c) pg_except) eqn:He; injection Hrun as <- <-.
      * right. right. left. by eauto.
      * right. right. right. by eauto.
  - intros payload Hrun. rewrite create_product_runs in Hrun.
    pose proof (primary_write_spec
                  (InsertProduct (new_name payload) (new_price_cents payload)) w)
      as (_ & _ & _ & Herr & _).
    destruct (primary_write _ w) as [[[u|]|e1] w1]; cbn in Herr.
    + destruct (set_then_return_spec (cache_key (id u)) u u w1) as (_ & _ & Hc & Ha).
      rewrite Hrun in Hc, Ha. cbn in Hc, Ha.
      destruct (fst (pop_fault (redis_faults (redis w1)))) as [c|] eqn:Hpf.
      * specialize (Hc c eq_refl).
        destruct (isinstance (Raised c) redis_except); simplify_eq. right. by eauto.
      * by specialize (Ha Hpf).
    + injection Hrun as <- <-. right. by eauto.
    + destruct (Herr _ eq_refl) as (_ & c & ->).
      destruct (isinstance (Raised c) pg_except) eqn:He; injection Hrun as <- <-.
      * left. by eauto.
      * right. by eauto.
Qed.

(** ** Further properties: requests in sequence *)

(** X16: a product just created is read from the cache.  When
    [create_product] returns a row and Redis answered its [SETEX], a
    [get_product] for the new id that Redis answers returns the cached
    document of that row and opens no connection, whether or not the
    replica holds the row yet. *)
Theorem create_then_get_served_from_cache w payload created w1 :
  create_product payload w = (Return created, w1) ->
  redis_answers w ->
  redis_answers w1 ->
  exists doc,
    json_dumps created = JsonText doc /\
    get_product (id created) w1
      = (Return (Cached doc), redis_called (RedisGet (cache_key (id created))) w1) /\
    store_calls (log (snd (get_product (id created) w1))) = store_calls (log w1).
Proof.
  intros Hrun Hup Hup1.
  assert (Hin : entries (redis w1) !! cache_key (id created)
                = Some (json_dumps created, CACHE_TTL_SECONDS)).
  { rewrite create_product_runs in Hrun.
    pose proof (primary_write_spec
                  (InsertProduct (new_name payload) (new_price_cents payload)) w)
      as (Hre & _).
    destruct (primary_write _ w) as [[[u|]|e] w0]; cbn in Hre.
    - destruct (set_then_return_spec (cache_key (id u)) u u w0) as (_ & Hes & _ & Ha).
      unfold redis_answers in *. rewrite Hre in Hes, Ha.
      rewrite Hrun in Hes, Ha. cbn in Hes, Ha. specialize (Ha Hup).
      injection Ha as ->. rewrite Hes, Hup. apply lookup_insert_eq.
    - discriminate.
    - destruct (isinstance e pg_except); discriminate. }
  destruct (get_product_serves_cached_row _ _ _ _ Hin Hup1) as (doc & Hdoc & Hget).
  exists doc. split; [done|]. split; [done|].
  rewrite Hget. cbn. apply store_calls_snoc_redis_get.
Qed.

(** X19: right after an update the read goes to the replica.  When
    [update_product] returned a row and Redis answered its [DEL], a
    [get_product] for that id whose cache lookup returns and whose replica
    fetch answers gets what the replica's committed table held before the
    update, which the update has not touched: it returns that row, and
    caches it when Redis answers the [SETEX], or raises the 404 when the
    replica holds none. *)
Theorem update_then_get_reads_replica w product_id payload updated w' cached w1 row w2 :
  update_product product_id payload w = (Return updated, w') ->
  redis_answers w ->
  redis_get_json (cache_key product_id) w' = (Return cached, w1) ->
  fetch_product_from_db REPLICA_DSN product_id w1 = (Return row, w2) ->
  row = products (db (replica w)) !! product_id /\
  (forall old, row = Some old ->
     redis_answers w2 ->
     fst (get_product product_id w') = Return (Row old) /\
     entries (redis (snd (get_product product_id w'))) !! cache_key product_id
       = Some (json_dumps old, CACHE_TTL_SECONDS)) /\
  (row = None -> fst (get_product product_id w') = Raise not_found).
Proof.
  intros Hrun Hup Hget Hrep.
  destruct (update_product_returns _ _ _ _ _ Hrun) as (_ & w0 & Hpw & _ & Hr & He).
  pose proof (primary_write_spec (UpdateById (set_parts payload) product_id) w)
    as (Hre & Hrp & _).
  rewrite Hpw in Hre, Hrp. cbn in Hre, Hrp.
  unfold redis_answers in Hup. rewrite Hre, Hup in He.
  assert (Habs : entries (redis w') !! cache_key product_id = None)
    by (rewrite He; apply lookup_delete_eq).
  pose proof (redis_get_json_absent _ _ _ _ Habs Hget) as ->.
  destruct (redis_get_json_returns _ _ _ _ Hget) as (_ & _ & _ & Hr1).
  pose proof (fetch_product_from_db_spec REPLICA_DSN product_id w1)
    as (_ & _ & _ & _ & _ & Hlook & _).
  rewrite Hrep in Hlook. cbn in Hlook. specialize (Hlook _ eq_refl).
  assert (Hrow : row = products (db (replica w)) !! product_id) by congruence.
  split; [done|]. clear Hrow. split.
  - intros old -> Hup2.
    rewrite (get_product_replica_answers _ _ _ _ _ _ Hget eq_refl Hrep).
    destruct (cache_and_return_spec product_id old w2) as (_ & _ & _ & Hes & _ & Ha).
    split; [by apply Ha|]. unfold redis_answers in Hup2.
    rewrite Hes, Hup2. apply lookup_insert_eq.
  - intros ->.
    by rewrite (get_product_replica_answers _ _ _ _ _ _ Hget eq_refl Hrep).
Qed.

Lemma get_product_returns_row w product_id row w' :
  get_product product_id w = (Return (Row row), w') ->
  exists w3,
    redis w3 = redis (redis_called (RedisGet (cache_key product_id)) w) /\
    cache_and_return product_id row w3 = (Return (Row row), w').
Proof.
  intros Hrun.
  pose proof (redis_get_json_world (cache_key product_id) w) as Hw1.
  destruct (redis_get_json (cache_key product_id) w) as [[cached|e] w1] eqn:Eget;
    cbn in Hw1; [|by rewrite (get_product_get_raises _ _ _ _ Eget) in Hrun].
  destruct (truthy cached) eqn:Ehit;
    [by rewrite (get_product_hit _ _ _ _ Eget Ehit) in Hrun|].
  pose proof (fetch_product_from_db_spec REPLICA_DSN product_id w1) as (_ & _ & Hr2 & _).
  destruct (fetch_product_from_db REPLICA_DSN product_id w1) as [[r|e] w2] eqn:Erep;
    cbn in Hr2.
  - rewrite (get_product_replica_answers _ _ _ _ _ _ Eget Ehit Erep) in Hrun.
    destruct r as [r|]; [|discriminate]. exists w2.
    assert (r = row) as ->.
    { destruct (cache_and_return_spec product_id r w2) as (_ & _ & _ & _ & Hc & Ha).
      rewrite Hrun in Hc, Ha. cbn in Hc, Ha.
      destruct (fst (pop_fault (redis_faults (redis w2)))) as [c|] eqn:Hf.
      - specialize (Hc c eq_refl).
        destruct (isinstance (Raised c) redis_except); by simplify_eq.
      - specialize (Ha Hf). by simplify_eq. }
    split; [congruence | done].
  - rewrite (get_product_replica_raises _ _ _ _ _ _ Eget Ehit Erep) in Hrun.
    destruct (isinstance e pg_except); [|discriminate].
    pose proof (fetch_product_from_db_spec PRIMARY_DSN product_id w2) as (_ & _ & Hr3 & _).
    destruct (fetch_product_from_db PRIMARY_DSN product_id w2) as [[[r|]|e2] w3];
      cbn in Hr3; [ | discriminate | by destruct (isinstance e2 pg_except) ].
    exists w3.
    assert (r = row) as ->.
    { destruct (cache_and_return_spec product_id r w3) as (_ & _ & _ & _ & Hc & Ha).
      rewrite Hrun in Hc, Ha. cbn in Hc, Ha.
      destruct (fst (pop_fault (redis_faults (redis w3)))) as [c|] eqn:Hf.
      - specialize (Hc c eq_refl).
        destruct (isinstance (Raised c) redis_except); by simplify_eq.
      - specialize (Ha Hf). by simplify_eq. }
    split; [congruence | done].
Qed.

(** X9: the second read is served from the cache.  When [get_product]
    returned a row from a store and Redis answered the [SETEX] that
    followed its [GET], the next [get_product] for that id that Redis
    answers returns the cached document of that row and opens no
    connection. *)
Theorem get_product_twice w product_id row w' :
  get_product product_id w = (Return (Row row), w') ->
  redis_answers (redis_called (RedisGet (cache_key product_id)) w) ->
  redis_answers w' ->
  exists doc,
    json_dumps row = JsonText doc /\
    get_product product_id w'
      = (Return (Cached doc), redis_called (RedisGet (cache_key product_id)) w') /\
    store_calls (log (snd (get_product product_id w'))) = store_calls (log w').
Proof.
  intros Hrun Hup Hup'.
  destruct (get_product_returns_row _ _ _ _ Hrun) as (w3 & Hre & Hset).
  assert (Hin : entries (redis w') !! cache_key product_id
                = Some (json_dumps row, CACHE_TTL_SECONDS)).
  { destruct (cache_and_return_spec product_id row w3) as (_ & _ & _ & Hes & _).
    rewrite Hset in Hes. cbn in Hes. unfold redis_answers in Hup.
    rewrite Hre, Hup in Hes. rewrite Hes. apply lookup_insert_eq. }
  destruct (get_product_serves_cached_row _ _ _ _ Hin Hup') as (doc & Hdoc & Hget).
  exists doc. split; [done|]. split; [done|].
  rewrite Hget. cbn. apply store_calls_snoc_redis_get.
Qed.

End App.


(** ** Examples *)



Lemma get_product_fallback_populates_witness :
  fst (get_product 60 render_timestamp 1 (replica_down_world None)) = Return (Row juice) /\
  entries (redis (snd (get_product 60 render_timestamp 1 (replica_down_world None))))
    !! cache_key 1 = Some (juice_text, 60).
Proof.
  pose (w := replica_down_world None).
  pose (w1 := snd (redis_get_json (cache_key 1) w)).
  pose (w2 := snd (fetch_product_from_db REPLICA_DSN 1 w1)).
  pose (w3 := snd (fetch_product_from_db PRIMARY_DSN 1 w2)).
  assert (Hget : redis_get_json (cache_key 1) w = (Return JNull, w1)) by computed.
  assert (Hrep : fetch_product_from_db REPLICA_DSN 1 w1
                 = (Raise (Raised pg_OperationalError), w2)) by computed.
  assert (Hpri : fetch_product_from_db PRIMARY_DSN 1 w2 = (Return (Some juice), w3))
    by computed.
  destruct (get_product_fallback_populates 60 render_timestamp w 1 JNull w1
              (Raised pg_OperationalError) w2 juice w3 Hget eq_refl Hrep eq_refl Hpri)
    as (_ & Hanswered & _).
  apply Hanswered. computed.
Defined.

(** With the replica down and the primary answering, a Redis that answers
    the [GET] and then refuses the [SETEX] leaves the cache without the row
    that [get_product] returns. *)
Lemma get_product_fallback_set_dropped :
  let w := replica_down_world (Some redis_ConnectionError) in
  let w1 := snd (redis_get_json (cache_key 1) w) in
  let w2 := snd (fetch_product_from_db REPLICA_DSN 1 w1) in
  redis_get_json (cache_key 1) w = (Return JNull, w1) /\
  truthy JNull = false /\
  fst (fetch_product_from_db REPLICA_DSN 1 w1) = Raise (Raised pg_OperationalError) /\
  isinstance (Raised pg_OperationalError) [pg_OperationalError; pg_InterfaceError] = true /\
  fst (fetch_product_from_db PRIMARY_DSN 1 w2) = Return (Some juice) /\
  fst (get_product 60 render_timestamp 1 w) = Return (Row juice) /\
  entries (redis (snd (get_product 60 render_timestamp 1 w))) !! cache_key 1 = None.
Proof. vm_compute. repeat split. Qed.

Lemma get_product_both_unavailable_witness :
  fst (get_product 60 render_timestamp 1 stores_down_world)
    = Raise (HTTPException 503 "Database unavailable: InterfaceError") /\
  store_calls (log (snd (get_product 60 render_timestamp 1 stores_down_world)))
    = [REPLICA_DSN; PRIMARY_DSN] /\
  cache_writes (log (snd (get_product 60 render_timestamp 1 stores_down_world))) = [] /\
  entries (redis (snd (get_product 60 render_timestamp 1 stores_down_world))) = ∅.
Proof.
  pose (w := stores_down_world).
  pose (w1 := snd (redis_get_json (cache_key 1) w)).
  pose (w2 := snd (fetch_product_from_db REPLICA_DSN 1 w1)).
  pose (w3 := snd (fetch_product_from_db PRIMARY_DSN 1 w2)).
  assert (Hget : redis_get_json (cache_key 1) w = (Return JNull, w1)) by computed.
  assert (Hrep : fetch_product_from_db REPLICA_DSN 1 w1
                 = (Raise (Raised pg_OperationalError), w2)) by computed.
  assert (Hpri : fetch_product_from_db PRIMARY_DSN 1 w2
                 = (Raise (Raised pg_InterfaceError), w3)) by computed.
  destruct (get_product_both_unavailable 60 render_timestamp w 1 JNull w1
              (Raised pg_OperationalError) w2 (Raised pg_InterfaceError) w3
              Hget eq_refl Hrep eq_refl Hpri eq_refl)
    as (Hrun & Hcalls & Hwrites & Hentries).
  fold w. rewrite Hrun. cbn [fst snd]. by rewrite Hcalls, Hwrites, Hentries.
Defined.

Lemma get_product_replica_error_propagates_witness :
  get_product 60 render_timestamp 1 replica_query_error_world
    = (Raise (Raised pg_ProgrammingError),
       snd (fetch_product_from_db REPLICA_DSN 1
              (snd (redis_get_json (cache_key 1) replica_query_error_world)))).
Proof.
  pose (w := replica_query_error_world).
  pose (w1 := snd (redis_get_json (cache_key 1) w)).
  pose (w2 := snd (fetch_product_from_db REPLICA_DSN 1 w1)).
  assert (Hget : redis_get_json (cache_key 1) w = (Return JNull, w1)) by computed.
  assert (Hrep : fetch_product_from_db REPLICA_DSN 1 w1
                 = (Raise (Raised pg_ProgrammingError), w2)) by computed.
  destruct (get_product_replica_error_propagates 60 render_timestamp w 1 JNull w1
              (Raised pg_ProgrammingError) w2 Hget eq_refl Hrep)
    as (Hraw & _).
  by destruct (Hraw eq_refl) as (Hrun & _).
Defined.

Lemma update_product_no_fields_witness :
  update_product 1 empty_request stale_cache_world
    = (Raise (HTTPException 400 "No fields to update"), stale_cache_world).
Proof.
  apply (update_product_no_fields stale_cache_world 1 empty_request); reflexivity.
Defined.



Lemma create_product_prefills_witness :
  fst (create_product 60 render_timestamp juice_request fresh_world) = Return juice /\
  entries (redis (snd (create_product 60 render_timestamp juice_request fresh_world)))
    !! cache_key 1 = Some (juice_text, 60).
Proof.
  pose (w := fresh_world).
  pose (w1 := snd (primary_write (InsertProduct "Juice" 250) w)).
  assert (Hins : primary_write (InsertProduct "Juice" 250) w = (Return (Some juice), w1))
    by computed.
  destruct (create_product_prefills 60 render_timestamp w juice_request) as (Hok & _).
  destruct (Hok (Some juice) w1 Hins)
    as (created & [= <-] & _ & _ & _ & _ & _ & _ & Hanswered & _).
  apply Hanswered. computed.
Defined.

(** A create whose [SETEX] is refused returns the created row and leaves the
    cache without it. *)
Lemma create_product_set_dropped :
  let w := cache_down_world in
  fst (primary_write (InsertProduct "Juice" 250) w) = Return (Some juice) /\
  fst (create_product 60 render_timestamp juice_request w) = Return juice /\
  entries (redis (snd (create_product 60 render_timestamp juice_request w)))
    !! cache_key 1 = None.
Proof. vm_compute. repeat split. Qed.


Lemma create_then_get_witness :
  let w1 := snd (create_product 60 render_timestamp juice_request fresh_world) in
  fst (get_product 60 render_timestamp 1 (replicate (set_redis empty_redis w1)))
    = Return (Row juice).
Proof.
  intros w1.
  pose (w2 := replicate (set_redis empty_redis w1)).
  pose (w3 := snd (redis_get_json (cache_key 1) w2)).
  pose (w4 := snd (fetch_product_from_db REPLICA_DSN 1 w3)).
  assert (Hcreate : create_product 60 render_timestamp juice_request fresh_world
                    = (Return juice, w1)) by computed.
  assert (Hget : redis_get_json (cache_key 1) w2 = (Return JNull, w3)) by computed.
  assert (Hrep : fetch_product_from_db REPLICA_DSN 1 w3 = (Return (Some juice), w4))
    by computed.
  destruct (create_then_get 60 render_timestamp fresh_world juice_request juice w1 Hcreate)
    as (_ & _ & _ & Hread).
  assert (Hb : client_faults (redis w2)) by constructor.
  destruct (Hread w2 JNull w3 Hget eq_refl Hb) as (Hreplica & _).
  destruct (Hreplica (Some juice) w4 Hrep) as (Hheld & _).
  apply Hheld. computed.
Defined.

(** After a create on the primary, a replica that has not replicated the
    row answers the read with no row: [get_product] on the cleared cache
    raises the 404. *)
Lemma create_then_get_lagging_replica :
  let w1 := snd (create_product 60 render_timestamp juice_request fresh_world) in
  let w2 := set_redis empty_redis w1 in
  fst (create_product 60 render_timestamp juice_request fresh_world) = Return juice /\
  products (db (primary w2)) !! 1 = Some juice /\
  products (db (replica w2)) !! 1 = None /\
  entries (redis w2) = ∅ /\
  fst (get_product 60 render_timestamp 1 w2)
    = Raise (HTTPException 404 "Product not found").
Proof. vm_compute. repeat split. Qed.

(** ** Examples for the further properties *)

Lemma cache_key_inj_witness : cache_key 1 <> cache_key 2.
Proof. apply (cache_key_inj 1 2). lia. Defined.

Lemma get_product_not_found_witness :
  get_product 60 render_timestamp 2 replicated_world
    = (Raise (HTTPException 404 "Product not found"),
       snd (fetch_product_from_db REPLICA_DSN 2
              (snd (redis_get_json (cache_key 2) replicated_world)))).
Proof.
  pose (w := replicated_world).
  pose (w1 := snd (redis_get_json (cache_key 2) w)).
  pose (w2 := snd (fetch_product_from_db REPLICA_DSN 2 w1)).
  assert (Hget : redis_get_json (cache_key 2) w = (Return JNull, w1)) by computed.
  assert (Hrep : fetch_product_from_db REPLICA_DSN 2 w1 = (Return None, w2)) by computed.
  destruct (get_product_not_found 60 render_timestamp w 2 JNull w1 Hget eq_refl)
    as (Hreplica & _).
  by destruct (Hreplica w2 Hrep) as (Hrun & _).
Defined.

Lemma get_product_replica_populates_witness :
  fst (get_product 60 render_timestamp 1 replicated_world) = Return (Row juice) /\
  entries (redis (snd (get_product 60 render_timestamp 1 replicated_world)))
    !! cache_key 1 = Some (juice_text, 60).
Proof.
  pose (w := replicated_world).
  pose (w1 := snd (redis_get_json (cache_key 1) w)).
  pose (w2 := snd (fetch_product_from_db REPLICA_DSN 1 w1)).
  assert (Hget : redis_get_json (cache_key 1) w = (Return JNull, w1)) by computed.
  assert (Hrep : fetch_product_from_db REPLICA_DSN 1 w1 = (Return (Some juice), w2))
    by computed.
  destruct (get_product_replica_populates 60 render_timestamp w 1 JNull w1 juice w2
              Hget eq_refl Hrep) as (_ & _ & _ & Hanswered).
  apply Hanswered. computed.
Defined.

Lemma get_product_primary_error_propagates_witness :
  fst (get_product 60 render_timestamp 1 primary_query_error_world)
    = Raise (Raised pg_ProgrammingError).
Proof.
  pose (w := primary_query_error_world).
  pose (w1 := snd (redis_get_json (cache_key 1) w)).
  pose (w2 := snd (fetch_product_from_db REPLICA_DSN 1 w1)).
  pose (w3 := snd (fetch_product_from_db PRIMARY_DSN 1 w2)).
  assert (Hget : redis_get_json (cache_key 1) w = (Return JNull, w1)) by computed.
  assert (Hrep : fetch_product_from_db REPLICA_DSN 1 w1
                 = (Raise (Raised pg_OperationalError), w2)) by computed.
  assert (Hpri : fetch_product_from_db PRIMARY_DSN 1 w2
                 = (Raise (Raised pg_ProgrammingError), w3)) by computed.
  destruct (get_product_primary_error_propagates 60 render_timestamp w 1 JNull w1
              (Raised pg_OperationalError) w2 (Raised pg_ProgrammingError) w3
              Hget eq_refl Hrep eq_refl Hpri eq_refl) as (Hrun & _).
  fold w. by rewrite Hrun.
Defined.

Lemma get_product_falsy_entry_is_miss_witness :
  exists cached,
    fst (redis_get_json (cache_key 1) falsy_cache_world) = Return cached /\
    truthy cached = false /\
    exists rest,
      store_calls (log (snd (get_product 60 render_timestamp 1 falsy_cache_world)))
        = store_calls (log falsy_cache_world) ++ REPLICA_DSN :: rest.
Proof.
  apply (get_product_falsy_entry_is_miss 60 render_timestamp falsy_cache_world 1
           (JsonText (JObj [])) 60).
  - computed.
  - reflexivity.
  - right. exists (JObj []). by split.
Defined.

Lemma get_product_undecodable_entry_witness :
  fst (get_product 60 render_timestamp 1 corrupt_cache_world)
    = Raise (Raised json_JSONDecodeError).
Proof.
  destruct (get_product_undecodable_entry 60 render_timestamp corrupt_cache_world 1
              "<html>" 60) as (_ & Hrun & _).
  - computed.
  - reflexivity.
  - by rewrite Hrun.
Defined.

Lemma cache_helpers_round_trip_witness :
  fst (redis_get_json "product:1"
         (snd (redis_set_json render_timestamp "product:1" juice 60 fresh_world)))
    = Return (JObj [("id", JInt 1); ("name", JStr "Juice");
                    ("price_cents", JInt 250); ("updated_at", JStr "1000")]).
Proof.
  destruct (cache_helpers_round_trip render_timestamp "product:1" juice 60 fresh_world)
    as (Hset & _).
  - reflexivity.
  - apply Hset. reflexivity.
Defined.

Lemma update_product_changes_given_fields_witness :
  exists old,
    products (db (primary stale_cache_world)) !! 1 = Some old /\
    id juice_repriced = id old /\
    name juice_repriced = default (name old) (upd_name reprice_request) /\
    price_cents juice_repriced
      = default (price_cents old) (upd_price_cents reprice_request) /\
    updated_at juice_repriced = Some (now (db (primary stale_cache_world))) /\
    products (db (primary (snd (update_product 1 reprice_request stale_cache_world))))
      = <[1 := juice_repriced]> (products (db (primary stale_cache_world))) /\
    replica (snd (update_product 1 reprice_request stale_cache_world))
      = replica stale_cache_world.
Proof.
  apply (update_product_changes_given_fields stale_cache_world 1 reprice_request
           juice_repriced (snd (update_product 1 reprice_request stale_cache_world))).
  computed.
Defined.

Lemma update_product_not_found_witness :
  fst (update_product 2 reprice_request stale_cache_world)
    = Raise (HTTPException 404 "Product not found") /\
  entries (redis (snd (update_product 2 reprice_request stale_cache_world)))
    = entries (redis stale_cache_world).
Proof.
  pose (w := stale_cache_world).
  pose (w1 := snd (primary_write (UpdateById (set_parts reprice_request) 2) w)).
  assert (Hpw : primary_write (UpdateById (set_parts reprice_request) 2) w
                = (Return None, w1)) by computed.
  destruct (update_product_not_found w 2 reprice_request None w1 eq_refl Hpw)
    as (Hrun & _ & Hredis & _).
  - computed.
  - fold w. rewrite Hrun. cbn [fst snd]. by rewrite Hredis.
Defined.


Lemma other_cache_entries_untouched_witness :
  entries (redis (snd (get_product 60 render_timestamp 2 stale_cache_world)))
    !! "product:1"
    = Some (JsonText stale_doc, 60).
Proof.
  destruct (other_cache_entries_untouched 60 render_timestamp stale_cache_world
              "product:1") as (Hget & _).
  rewrite (Hget 2); [reflexivity|]. by vm_compute.
Defined.

Lemma handler_errors_witness :
  HTTPException 503 "Database unavailable: InterfaceError"
    = HTTPException 404 "Product not found" \/
  (exists e2,
     isinstance e2 [pg_OperationalError; pg_InterfaceError] = true /\
     HTTPException 503 "Database unavailable: InterfaceError"
       = HTTPException 503 ("Database unavailable: " +:+ exn_name e2)) \/
  (exists c, HTTPException 503 "Database unavailable: InterfaceError" = Raised c).
Proof.
  destruct (handler_errors 60 render_timestamp stores_down_world
              (HTTPException 503 "Database unavailable: InterfaceError")
              (snd (get_product 60 render_timestamp 1 stores_down_world)))
    as (Hget & _).
  apply (Hget 1). computed.
Defined.

Lemma create_then_get_served_from_cache_witness :
  let w1 := snd (create_product 60 render_timestamp juice_request fresh_world) in
  exists doc,
    json_dumps render_timestamp juice = JsonText doc /\
    get_product 60 render_timestamp (id juice) w1
      = (Return (Cached doc), redis_called (RedisGet (cache_key (id juice))) w1) /\
    store_calls (log (snd (get_product 60 render_timestamp (id juice) w1)))
      = store_calls (log w1).
Proof.
  intros w1.
  apply (create_then_get_served_from_cache 60 render_timestamp fresh_world
           juice_request juice w1); computed.
Defined.

Lemma update_then_get_reads_replica_witness :
  let w' := snd (update_product 1 reprice_request stale_cache_world) in
  fst (get_product 60 render_timestamp 1 w') = Return (Row juice) /\
  entries (redis (snd (get_product 60 render_timestamp 1 w'))) !! cache_key 1
    = Some (juice_text, 60).
Proof.
  intros w'.
  pose (w1 := snd (redis_get_json (cache_key 1) w')).
  pose (w2 := snd (fetch_product_from_db REPLICA_DSN 1 w1)).
  assert (Hrun : update_product 1 reprice_request stale_cache_world
                 = (Return juice_repriced, w')) by computed.
  assert (Hget : redis_get_json (cache_key 1) w' = (Return JNull, w1)) by computed.
  assert (Hrep : fetch_product_from_db REPLICA_DSN 1 w1 = (Return (Some juice), w2))
    by computed.
  destruct (update_then_get_reads_replica 60 render_timestamp stale_cache_world 1
              reprice_request juice_repriced w' JNull w1 (Some juice) w2
              Hrun eq_refl Hget Hrep) as (_ & Hrow & _).
  apply (Hrow juice eq_refl). computed.
Defined.

Lemma get_product_twice_witness :
  let w' := snd (get_product 60 render_timestamp 1 replicated_world) in
  exists doc,
    json_dumps render_timestamp juice = JsonText doc /\
    get_product 60 render_timestamp 1 w'
      = (Return (Cached doc), redis_called (RedisGet (cache_key 1)) w') /\
    store_calls (log (snd (get_product 60 render_timestamp 1 w'))) = store_calls (log w').
Proof.
  intros w'.
  apply (get_product_twice 60 render_timestamp replicated_world 1 juice w'); computed.
Defined.
